(** * ollama_agent_toolkit: the agent turn loop and its bounded memory

    A shallow embedding of [memory.py], [agent.py], [tools.py],
    [ollama_client.py], [examples/chat_agent.py] and [run_agent.py],
    followed by the properties of the specification that were checked
    against it and by further properties of the code.

    Conventions.
    - A Python [str] is a [string]; each [ascii] stands for one code point
      below U+0100.
    - A Python [float] is a primitive binary64 [float]; an [int] is a [Z].
    - A call that may raise has a result in [outcome]; objects mutated in
      place are passed in and out explicitly.
    - The outside world (the clock read by [datetime.now], the HTTP
      transport, the functions wrapped by the standard tools) is an
      oracle record; the effects already performed are counted in
      [World]. *)

From Stdlib Require Import ZArith Floats Ascii String.
From stdpp Require Import base list strings pretty.

Local Open Scope string_scope.

(** ** Python values and library functions *)

Module Py.

(** An exception instance, by what a handler can see of it:
    - [Exn class str]: an instance of [Exception] (of [class], which is
      [Exception] or below it) whose [str(e)] is [str];
    - [ExnStrRaises class inner]: an instance of [Exception] whose
      [__str__] raises [inner];
    - [BaseExn class str]: an instance of [BaseException] that is not an
      [Exception] ([KeyboardInterrupt], [SystemExit], [GeneratorExit] or
      a class of the program's own). *)
Inductive exn :=
| Exn (class str : string)
| ExnStrRaises (class : string) (inner : exn)
| BaseExn (class str : string).

Definition exn_class (e : exn) : string :=
  match e with
  | Exn class _ | ExnStrRaises class _ | BaseExn class _ => class
  end.

(** The text of an exception whose [__str__] returns. *)
Definition exn_str (e : exn) : string :=
  match e with
  | Exn _ str | BaseExn _ str => str
  | ExnStrRaises _ _ => EmptyString
  end.

(** [isinstance(e, Exception)] *)
Definition is_Exception (e : exn) : bool :=
  match e with
  | Exn _ _ | ExnStrRaises _ _ => true
  | BaseExn _ _ => false
  end.

(** An error as a library raises it: of class [Exception], with a
    [__str__] that returns. *)
Definition ordinary (e : exn) : exn := Exn (exn_class e) (exn_str e).

Inductive outcome (A : Type) :=
| Returns (a : A)
| Raises (e : exn).
Arguments Returns {A} a.
Arguments Raises {A} e.

Definition Exception (msg : string) : exn := Exn "Exception" msg.

#[export] Instance outcome_ret : MRet outcome := fun _ a => Returns a.
#[export] Instance outcome_bind : MBind outcome := fun _ _ k c =>
  match c with
  | Returns a => k a
  | Raises e => Raises e
  end.

(** [str(e)] *)
Definition str (e : exn) : outcome string :=
  match e with
  | ExnStrRaises _ inner => Raises inner
  | Exn _ text | BaseExn _ text => Returns text
  end.

(** Rocq string literals cannot hold a bare double quote: [dq] turns
    every backquote of its argument into a double quote. *)
Definition dquote : ascii := ascii_of_nat 34.
Definition backquote : ascii := ascii_of_nat 96.

Fixpoint dq (s : string) : string :=
  match s with
  | EmptyString => EmptyString
  | String c s' => String (if Ascii.eqb c backquote then dquote else c) (dq s')
  end.

(** [str.isspace] on one code point below U+0100. *)
Definition isspace (c : ascii) : bool :=
  let n := nat_of_ascii c in
  ((9 <=? n) && (n <=? 13) || (28 <=? n) && (n <=? 32)
   || (n =? 133) || (n =? 160))%nat.

(** [s.split()]: the maximal runs of non-whitespace, in order. [cur] is
    the word being read, if any. *)
Fixpoint split_from (cur : option string) (s : string) : list string :=
  match s with
  | EmptyString => match cur with Some w => [w] | None => [] end
  | String c s' =>
      if isspace c then
        match cur with
        | Some w => w :: split_from None s'
        | None => split_from None s'
        end
      else split_from (Some (default EmptyString cur +:+ String c EmptyString)) s'
  end.

Definition split (s : string) : list string := split_from None s.

(** [float(n)] for a length [n], which is far below 2^63. *)
Definition float_of_nat (n : nat) : float :=
  PrimFloat.of_uint63 (Uint63.of_Z (Z.of_nat n)).

(** [f > z] for a float [f] and an int [z]; Python compares the two
    exactly. *)
Definition float_gt_int (f : float) (z : Z) : bool :=
  match Prim2SF f with
  | S754_nan => false
  | S754_infinity neg => negb neg
  | S754_zero _ => (z <? 0)%Z
  | S754_finite neg m e =>
      let v := if neg then Z.neg m else Z.pos m in
      if (0 <=? e)%Z then (z <? v * 2 ^ e)%Z else (z * 2 ^ (- e) <? v)%Z
  end.

(** [l[start:]] *)
Definition slice_from {A} (start : Z) (l : list A) : list A :=
  let len := Z.of_nat (length l) in
  let i := if (start <? 0)%Z then Z.max 0 (start + len) else Z.min start len in
  drop (Z.to_nat i) l.

(** [s.startswith(prefix)] *)
Fixpoint startswith (s prefix : string) : bool :=
  match prefix, s with
  | EmptyString, _ => true
  | String a prefix', String b s' => Ascii.eqb a b && startswith s' prefix'
  | String _ _, EmptyString => false
  end.

(** [s[n:]] for [0 <= n] *)
Fixpoint skip (n : nat) (s : string) : string :=
  match n, s with
  | S n', String _ s' => skip n' s'
  | _, _ => s
  end.

(** [s.replace(old, new)]: every non-overlapping occurrence, scanning
    from the left. [pending] counts the characters of an occurrence
    already replaced that are still to be passed over. *)
Fixpoint replace_from (pending : nat) (s old new : string) : string :=
  match s with
  | EmptyString => EmptyString
  | String c s' =>
      match pending with
      | S k => replace_from k s' old new
      | O =>
          if startswith s old
          then new +:+ replace_from (String.length old - 1) s' old new
          else String c (replace_from 0 s' old new)
      end
  end.

Fixpoint replace_empty (s new : string) : string :=
  match s with
  | EmptyString => new
  | String c s' => new +:+ String c (replace_empty s' new)
  end.

Definition replace (s old new : string) : string :=
  match old with
  | EmptyString => replace_empty s new
  | String _ _ => replace_from 0 s old new
  end.

(** [try: body / except Exception as e: handler(e)]: an exception that
    is no instance of [Exception] passes the handler by. *)
Definition try_except_Exception {A} (body : outcome A) (handler : exn -> outcome A)
  : outcome A :=
  match body with
  | Returns a => Returns a
  | Raises e => if is_Exception e then handler e else Raises e
  end.

(** [try: body / except cls: handler], for a class [cls] without
    subclasses. *)
Definition try_except {A} (body : outcome A) (cls : string) (handler : outcome A)
  : outcome A :=
  match body with
  | Returns a => Returns a
  | Raises e => if String.eqb (exn_class e) cls then handler else Raises e
  end.

(** Code that runs in a state [S] it may change and that may raise: the
    state reached is kept when it raises. *)
Definition M (S A : Type) : Type := S -> outcome A * S.

#[export] Instance M_ret {S} : MRet (M S) := fun _ a st => (Returns a, st).
#[export] Instance M_bind {S} : MBind (M S) := fun _ _ k c st =>
  match c st with
  | (Returns a, st') => k a st'
  | (Raises e, st') => (Raises e, st')
  end.

Definition gets {S A} (f : S -> A) : M S A := fun st => (Returns (f st), st).
Definition modify {S} (f : S -> S) : M S unit := fun st => (Returns tt, f st).
Definition lift {S A} (c : outcome A) : M S A := fun st => (c, st).

(** [dict]: an insertion-ordered mapping with [str] keys. Setting a key
    already present keeps its place. *)
Fixpoint dict_set {V} (d : list (string * V)) (k : string) (v : V)
  : list (string * V) :=
  match d with
  | [] => [(k, v)]
  | (k', v') :: d' =>
      if String.eqb k' k then (k', v) :: d' else (k', v') :: dict_set d' k v
  end.

Fixpoint dict_get {V} (d : list (string * V)) (k : string) : option V :=
  match d with
  | [] => None
  | (k', v') :: d' => if String.eqb k' k then Some v' else dict_get d' k
  end.

(** [dict(pairs)] *)
Definition dict {V} (pairs : list (string * V)) : list (string * V) :=
  fold_left (fun d kv => dict_set d (fst kv) (snd kv)) pairs [].

(** Raised where Python would go on with a value this development has
    no representation for. It is not a Python exception: only the
    definitions below raise it, and none of their handlers is on its
    way to the caller. *)
Definition NotModelled (what : string) : exn := Exn "NotModelled" what.

End Py.
Export Py.

(** ** memory.py *)

Module Memory.

Record Message := mkMessage {
  role : string;
  content : string;
  timestamp : string
}.

(** [Message.to_chat_message] *)
Record ChatMessage := mkChat { chat_role : string; chat_content : string }.

Definition to_chat_message (msg : Message) : ChatMessage :=
  mkChat (role msg) (content msg).

Record t := mkMemory {
  messages : list Message;
  max_tokens : Z;
  token_count : float
}.

(** [Memory.__init__]; [token_count] starts as the int [0], which the
    first [+=] turns into a float without changing its value. *)
Definition __init__ (max_tokens : Z) : t := mkMemory [] max_tokens 0%float.

Definition default_max_tokens : Z := 16000%Z.

(** [len(content.split()) * 1.3]; the literal is the binary64 value that
    Python reads [1.3] as. *)
Definition TOKEN_FACTOR : float := 0x1.4cccccccccccdp+0%float.

Definition token_estimate (content : string) : float :=
  (float_of_nat (length (split content)) * TOKEN_FACTOR)%float.

(** The loop of [_prune_if_needed]: one iteration per recursive call. *)
Fixpoint prune_loop (max : Z) (count : float) (msgs : list Message)
  : list Message * float :=
  match msgs with
  | removed_message :: rest =>
      if float_gt_int count max && (3 <? length msgs)%nat then
        prune_loop max (count - token_estimate (content removed_message))%float rest
      else (msgs, count)
  | [] => (msgs, count)
  end.

Definition _prune_if_needed (m : t) : t :=
  let '(msgs, count) := prune_loop (max_tokens m) (token_count m) (messages m) in
  mkMemory msgs (max_tokens m) count.

(** [add_message]; [now] is the value of [datetime.now().isoformat()]
    read by the [Message] constructor. *)
Definition add_message (m : t) (role content now : string) : t :=
  let message := mkMessage role content now in
  let m1 := mkMemory (messages m ++ [message]) (max_tokens m)
              (token_count m + token_estimate content)%float in
  _prune_if_needed m1.

Definition get_chat_messages (m : t) : list ChatMessage :=
  map to_chat_message (messages m).

Definition get_last_n_messages (m : t) (n : Z) : list ChatMessage :=
  map to_chat_message (slice_from (- n) (messages m)).

Definition clear (m : t) : t := mkMemory [] (max_tokens m) 0%float.

End Memory.


(** ** The fragment of Python's [re] used by agent.py

    A pattern is a sequence of items; repetition applies to a
    one-character atom, which is all that [json_pattern] needs. Groups
    are kept as markers: only [group(0)] is read by the agent. *)

Module Re.

Inductive atom :=
| Lit (c : ascii)                          (* the character itself *)
| Set_ (negated : bool) (cs : list ascii)  (* [[...]] and [[^...]] *)
| Space.                                   (* [\s] *)

Inductive item :=
| One (a : atom)
| Star (a : atom)     (* greedy [a*] *)
| Plus (a : atom)     (* greedy [a+] *)
| GroupOpen
| GroupClose.

Definition accepts (a : atom) (c : ascii) : bool :=
  match a with
  | Lit c' => Ascii.eqb c' c
  | Set_ negated cs => xorb negated (existsb (Ascii.eqb c) cs)
  | Space => isspace c
  end.

(** *** Reading a pattern, one character at a time *)

Inductive mode :=
| Normal
| Escaped                                       (* after a backslash *)
| BraceSeen                                     (* after an opening brace *)
| SetOpen                                       (* after [[] *)
| SetBody (negated : bool) (cs : list ascii)    (* inside a set; [cs] reversed *)
| SetEscaped (negated : bool) (cs : list ascii).

Record pstate := PState {
  out : list item;      (* reversed *)
  depth : nat;          (* groups still open *)
  md : mode
}.

Definition is_digit (c : ascii) : bool :=
  let n := nat_of_ascii c in ((48 <=? n) && (n <=? 57))%nat.

Definition is_alnum (c : ascii) : bool :=
  let n := nat_of_ascii c in
  is_digit c || ((65 <=? n) && (n <=? 90))%nat || ((97 <=? n) && (n <=? 122))%nat.

Definition quantify (q : atom -> item) (out : list item) : option (list item) :=
  match out with
  | One a :: out' => Some (q a :: out')
  | _ => None
  end.

Definition normal_step (out : list item) (depth : nat) (c : ascii) : option pstate :=
  if Ascii.eqb c "\" then Some (PState out depth Escaped)
  else if Ascii.eqb c "[" then Some (PState out depth SetOpen)
  else if Ascii.eqb c "{" then Some (PState out depth BraceSeen)
  else if Ascii.eqb c "(" then Some (PState (GroupOpen :: out) (S depth) Normal)
  else if Ascii.eqb c ")" then
    match depth with
    | S d => Some (PState (GroupClose :: out) d Normal)
    | O => None
    end
  else if Ascii.eqb c "*" then out' ← quantify Star out; Some (PState out' depth Normal)
  else if Ascii.eqb c "+" then out' ← quantify Plus out; Some (PState out' depth Normal)
  else if existsb (Ascii.eqb c) (list_ascii_of_string ".^$|?") then None
  else Some (PState (One (Lit c) :: out) depth Normal).

(** An opening brace that does not start a repetition count stands for
    itself. Escapes of letters and digits other than [\s], ranges in
    sets, counts, alternation, anchors and [?] are outside the fragment:
    [step] answers [None]. *)
Definition step (st : pstate) (c : ascii) : option pstate :=
  match md st with
  | Normal => normal_step (out st) (depth st) c
  | Escaped =>
      if Ascii.eqb c "s" then Some (PState (One Space :: out st) (depth st) Normal)
      else if is_alnum c then None
      else Some (PState (One (Lit c) :: out st) (depth st) Normal)
  | BraceSeen =>
      if is_digit c || Ascii.eqb c "," then None
      else normal_step (One (Lit "{") :: out st) (depth st) c
  | SetOpen =>
      if Ascii.eqb c "^" then Some (PState (out st) (depth st) (SetBody true []))
      else if Ascii.eqb c "]" || Ascii.eqb c "-" then None
      else if Ascii.eqb c "\" then Some (PState (out st) (depth st) (SetEscaped false []))
      else Some (PState (out st) (depth st) (SetBody false [c]))
  | SetBody negated cs =>
      if Ascii.eqb c "]" then
        match cs with
        | [] => None
        | _ => Some (PState (One (Set_ negated (rev cs)) :: out st) (depth st) Normal)
        end
      else if Ascii.eqb c "-" || Ascii.eqb c "[" then None
      else if Ascii.eqb c "\" then Some (PState (out st) (depth st) (SetEscaped negated cs))
      else Some (PState (out st) (depth st) (SetBody negated (c :: cs)))
  | SetEscaped negated cs =>
      if is_alnum c then None
      else Some (PState (out st) (depth st) (SetBody negated (c :: cs)))
  end.

Fixpoint steps (st : pstate) (pattern : string) : option pstate :=
  match pattern with
  | EmptyString => Some st
  | String c pattern' => st' ← step st c; steps st' pattern'
  end.

(** [re.compile(pattern)] on the fragment. *)
Definition compile (pattern : string) : option (list item) :=
  st ← steps (PState [] 0 Normal) pattern;
  match md st, depth st with
  | Normal, O => Some (rev (out st))
  | BraceSeen, O => Some (rev (One (Lit "{") :: out st))
  | _, _ => None
  end.

(** *** Matching: leftmost, greedy, backtracking *)

(** As many [a] as possible, then fewer, until the rest [k] matches. *)
Fixpoint greedy (a : atom) (k : string -> option nat) (s : string) : option nat :=
  match s with
  | String c s' =>
      if accepts a c then
        match greedy a k s' with
        | Some n => Some (S n)
        | None => k s
        end
      else k s
  | EmptyString => k s
  end.

(** The length of the match of [p] that starts at the head of [s]. *)
Fixpoint match_here (p : list item) (s : string) : option nat :=
  match p with
  | [] => Some 0
  | One a :: p' =>
      match s with
      | String c s' => if accepts a c then S <$> match_here p' s' else None
      | EmptyString => None
      end
  | Star a :: p' => greedy a (match_here p') s
  | Plus a :: p' =>
      match s with
      | String c s' => if accepts a c then S <$> greedy a (match_here p') s' else None
      | EmptyString => None
      end
  | GroupOpen :: p' | GroupClose :: p' => match_here p' s
  end.

(** A match object: the span of [group(0)] in the searched string. *)
Record Match := mkMatch { string_ : string; start : nat; stop : nat }.

Definition group0 (m : Match) : string :=
  substring (start m) (stop m - start m) (string_ m).

Fixpoint search_at (p : list item) (whole : string) (pos : nat) (s : string)
  : option Match :=
  match match_here p s with
  | Some n => Some (mkMatch whole pos (pos + n))
  | None =>
      match s with
      | String _ s' => search_at p whole (S pos) s'
      | EmptyString => None
      end
  end.

(** [re.search(pattern, string)] *)
Definition search (pattern s : string) : outcome (option Match) :=
  match compile pattern with
  | Some p => Returns (search_at p s 0 s)
  | None => Raises (NotModelled "pattern")
  end.

End Re.


(** ** The decoder behind [json.loads]

    Values are decoded as Python does, with the position text of error
    messages left out. Numbers with a fraction or an exponent, [NaN] and
    the infinities, and [\u] escapes above U+00FF have no representation
    here: a text that contains one where the decoder reads it yields
    [NotModelled]. *)

Module Json.

#[warnings="-register-all"]
Inductive value :=
| Null
| Bool (b : bool)
| Int (z : Z)
| Str (s : string)
| Arr (items : list value)
| Obj (pairs : list (string * value)).

Definition JSONDecodeError (msg : string) : exn := Exn "JSONDecodeError" msg.

Definition is_ws (c : ascii) : bool :=
  existsb (Nat.eqb (nat_of_ascii c)) [32; 9; 10; 13].

Fixpoint skip_ws (s : string) : string :=
  match s with
  | String c s' => if is_ws c then skip_ws s' else s
  | EmptyString => s
  end.

Definition hex_digit (c : ascii) : option nat :=
  let n := nat_of_ascii c in
  if ((48 <=? n) && (n <=? 57))%nat then Some (n - 48)
  else if ((65 <=? n) && (n <=? 70))%nat then Some (n - 55)
  else if ((97 <=? n) && (n <=? 102))%nat then Some (n - 87)
  else None.

Definition hex4 (h1 h2 h3 h4 : ascii) : option nat :=
  a ← hex_digit h1; b ← hex_digit h2; c ← hex_digit h3; d ← hex_digit h4;
  Some (((a * 16 + b) * 16 + c) * 16 + d).

Definition unescape (c : ascii) : option ascii :=
  if Ascii.eqb c dquote || Ascii.eqb c "\" || Ascii.eqb c "/" then Some c
  else if Ascii.eqb c "b" then Some (ascii_of_nat 8)
  else if Ascii.eqb c "f" then Some (ascii_of_nat 12)
  else if Ascii.eqb c "n" then Some (ascii_of_nat 10)
  else if Ascii.eqb c "r" then Some (ascii_of_nat 13)
  else if Ascii.eqb c "t" then Some (ascii_of_nat 9)
  else None.

(** [scanstring], entered after the opening quote: the decoded string
    and the text after the closing quote. *)
Fixpoint scanstring (s acc : string) : outcome (string * string) :=
  match s with
  | EmptyString => Raises (JSONDecodeError "Unterminated string starting at")
  | String c s' =>
      if Ascii.eqb c dquote then Returns (acc, s')
      else if Ascii.eqb c "\" then
        match s' with
        | EmptyString => Raises (JSONDecodeError "Unterminated string starting at")
        | String esc s'' =>
            if Ascii.eqb esc "u" then
              match s'' with
              | String h1 (String h2 (String h3 (String h4 rest))) =>
                  match hex4 h1 h2 h3 h4 with
                  | Some n =>
                      if (n <? 256)%nat
                      then scanstring rest (acc +:+ String (ascii_of_nat n) EmptyString)
                      else Raises (NotModelled "code point above U+00FF")
                  | None => Raises (JSONDecodeError "Invalid \uXXXX escape")
                  end
              | _ => Raises (JSONDecodeError "Invalid \uXXXX escape")
              end
            else
              match unescape esc with
              | Some ch => scanstring s'' (acc +:+ String ch EmptyString)
              | None => Raises (JSONDecodeError "Invalid \escape")
              end
        end
      else if (nat_of_ascii c <? 32)%nat
      then Raises (JSONDecodeError "Invalid control character at")
      else scanstring s' (acc +:+ String c EmptyString)
  end.

(** The leading decimal digits of [s], read as a number, how many there
    are, and the rest. *)
Fixpoint digits (acc : Z) (count : nat) (s : string) : Z * nat * string :=
  match s with
  | String c s' =>
      if Re.is_digit c
      then digits (acc * 10 + Z.of_nat (nat_of_ascii c - 48)) (S count) s'
      else (acc, count, s)
  | EmptyString => (acc, count, s)
  end.

(** [NUMBER_RE.match]: the integer part, whether a fraction or an
    exponent follows it, and the text after the number. *)
Definition match_number (s : string) : option (Z * bool * string) :=
  let '(negative, s1) :=
    match s with
    | String c s' => if Ascii.eqb c "-" then (true, s') else (false, s)
    | EmptyString => (false, s)
    end in
  let sign (z : Z) := if negative : bool then (- z)%Z else z in
  let after_int (z : Z) (rest : string) :=
    let '(has_frac, rest1) :=
      match rest with
      | String c r =>
          if Ascii.eqb c "." then
            let '(_, n, r') := digits 0 0 r in
            if (0 <? n)%nat then (true, r') else (false, rest)
          else (false, rest)
      | EmptyString => (false, rest)
      end in
    let '(has_exp, rest2) :=
      match rest1 with
      | String c r =>
          if Ascii.eqb c "e" || Ascii.eqb c "E" then
            let r0 :=
              match r with
              | String sg r' => if Ascii.eqb sg "-" || Ascii.eqb sg "+" then r' else r
              | EmptyString => r
              end in
            let '(_, n, r') := digits 0 0 r0 in
            if (0 <? n)%nat then (true, r') else (false, rest1)
          else (false, rest1)
      | EmptyString => (false, rest1)
      end in
    Some (sign z, has_frac || has_exp, rest2) in
  match s1 with
  | String c s' =>
      if Ascii.eqb c "0" then after_int 0%Z s'
      else if Re.is_digit c then
        let '(z, _, rest) := digits 0 0 s1 in after_int z rest
      else None
  | EmptyString => None
  end.

(** [scan_once], [JSONObject] from its first key on and [JSONArray] from
    its first item on. A call of [scan_once] reads at least one
    character before it calls one of the other two, and each of those
    reads at least one before it calls itself again: two units of fuel
    for each character of the text, and two more, are never used up. *)
Fixpoint scan_once (fuel : nat) (s : string) : outcome (value * string) :=
  match fuel with
  | O => Raises (NotModelled "fuel")
  | S fuel' =>
      match s with
      | EmptyString => Raises (JSONDecodeError "Expecting value")
      | String c s' =>
          if Ascii.eqb c dquote then
            '(str, rest) ← scanstring s' EmptyString; Returns (Str str, rest)
          else if Ascii.eqb c "{" then
            let s1 := skip_ws s' in
            match s1 with
            | String k s2 =>
                if Ascii.eqb k dquote then object_pairs fuel' s2 []
                else if Ascii.eqb k "}" then Returns (Obj [], s2)
                else Raises (JSONDecodeError
                  "Expecting property name enclosed in double quotes")
            | EmptyString => Raises (JSONDecodeError
                  "Expecting property name enclosed in double quotes")
            end
          else if Ascii.eqb c "[" then
            let s1 := skip_ws s' in
            match s1 with
            | String k s2 =>
                if Ascii.eqb k "]" then Returns (Arr [], s2)
                else array_items fuel' s1 []
            | EmptyString => Raises (JSONDecodeError "Expecting value")
            end
          else if startswith s "null" then Returns (Null, skip 4 s)
          else if startswith s "true" then Returns (Bool true, skip 4 s)
          else if startswith s "false" then Returns (Bool false, skip 5 s)
          else
            match match_number s with
            | Some (z, false, rest) => Returns (Int z, rest)
            | Some (_, true, _) => Raises (NotModelled "float")
            | None =>
                if startswith s "NaN" || startswith s "Infinity"
                   || startswith s "-Infinity"
                then Raises (NotModelled "float")
                else Raises (JSONDecodeError "Expecting value")
            end
      end
  end

with object_pairs (fuel : nat) (s : string) (pairs : list (string * value))
  : outcome (value * string) :=
  match fuel with
  | O => Raises (NotModelled "fuel")
  | S fuel' =>
      '(key, s1) ← scanstring s EmptyString;
      match skip_ws s1 with
      | String colon s2 =>
          if Ascii.eqb colon ":" then
            '(v, s3) ← scan_once fuel' (skip_ws s2);
            let pairs' := (pairs ++ [(key, v)])%list in
            match skip_ws s3 with
            | String nextchar s4 =>
                if Ascii.eqb nextchar "}" then Returns (Obj (dict pairs'), s4)
                else if Ascii.eqb nextchar "," then
                  match skip_ws s4 with
                  | String q s5 =>
                      if Ascii.eqb q dquote then object_pairs fuel' s5 pairs'
                      else Raises (JSONDecodeError
                        "Expecting property name enclosed in double quotes")
                  | EmptyString => Raises (JSONDecodeError
                        "Expecting property name enclosed in double quotes")
                  end
                else Raises (JSONDecodeError "Expecting ',' delimiter")
            | EmptyString => Raises (JSONDecodeError "Expecting ',' delimiter")
            end
          else Raises (JSONDecodeError "Expecting ':' delimiter")
      | EmptyString => Raises (JSONDecodeError "Expecting ':' delimiter")
      end
  end

with array_items (fuel : nat) (s : string) (items : list value)
  : outcome (value * string) :=
  match fuel with
  | O => Raises (NotModelled "fuel")
  | S fuel' =>
      '(v, s1) ← scan_once fuel' s;
      let items' := (items ++ [v])%list in
      match skip_ws s1 with
      | String nextchar s2 =>
          if Ascii.eqb nextchar "]" then Returns (Arr items', s2)
          else if Ascii.eqb nextchar "," then array_items fuel' (skip_ws s2) items'
          else Raises (JSONDecodeError "Expecting ',' delimiter")
      | EmptyString => Raises (JSONDecodeError "Expecting ',' delimiter")
      end
  end.

(** [json.loads(s)] *)
Definition loads (s : string) : outcome value :=
  '(obj, rest) ← scan_once (2 * String.length s + 2) (skip_ws s);
  match skip_ws rest with
  | EmptyString => Returns obj
  | String _ _ => Raises (JSONDecodeError "Extra data")
  end.

End Json.


(** ** The world outside the program *)

Module World.

(** The JSON body posted to [/api/chat]. *)
Record Payload := mkPayload {
  p_model : string;
  p_messages : list Memory.ChatMessage;
  p_stream : bool;
  p_temperature : float;
  p_num_predict : Z;
  p_system : option string
}.

(** What the client reads of a [requests] response; [message_content]
    is the outcome of [response.json()["message"]["content"]]. *)
Record Response := mkResponse {
  status_code : Z;
  text : string;
  message_content : outcome string
}.

(** The effects performed so far. *)
Record t := mkWorld {
  clock_reads : nat;
  requests : list (string * Payload);
  stdout : list (string * string)       (* text printed, and its colour *)
}.

Definition initial : t := mkWorld 0 [] [].

(** - [now n]: [datetime.now().isoformat()] at the read number [n];
    - [post n url payload]: [requests.post(url, json=payload)] for the
      request number [n];
    - [call f kwargs]: [f( **kwargs)] for the function named [f] of
      tools.py. *)
Record oracle := mkOracle {
  now : nat -> string;
  post : nat -> string -> Payload -> outcome Response;
  call : string -> Json.value -> outcome string
}.

End World.

(** ** tools.py *)

Module Tool.

(** [func kwargs] is the outcome of [self.func( **kwargs)], the binding of
    the keyword arguments included. *)
Record t := mkTool {
  name : string;
  description : string;
  func : Json.value -> outcome string
}.

(** [tool( **kwargs)] *)
Definition __call__ (self : t) (kwargs : Json.value) : outcome string :=
  func self kwargs.

End Tool.

Definition STANDARD_TOOLS (env : World.oracle) : list Tool.t := [
  Tool.mkTool "search" "Search the web for information" (World.call env "search_web");
  Tool.mkTool "weather" "Get the current weather for a location" (World.call env "get_weather");
  Tool.mkTool "time" "Get the current time in a specific timezone" (World.call env "get_current_time");
  Tool.mkTool "write_file" "Write content to a file" (World.call env "write_to_file");
  Tool.mkTool "read_file" "Read content from a file" (World.call env "read_from_file");
  Tool.mkTool "calculate" "Evaluate a mathematical expression" (World.call env "calculate")
].

(** ** ollama_client.py *)

Module OllamaClient.

Record t := mkClient { base_url : string }.

Definition __init__ : t := mkClient "http://localhost:11434".

(** [chat] with [stream] left at [False], as the agent calls it. What
    [requests] and the decoding of the body raise are library errors:
    the answer of the oracle is read as one ([ordinary]). *)
Definition chat (env : World.oracle) (self : t) (model : string)
    (messages : list Memory.ChatMessage) (system_prompt : string)
    (temperature : float) (max_tokens : Z) : M World.t string :=
  fun w =>
    let url := base_url self +:+ "/api/chat" in
    let payload :=
      World.mkPayload model messages false temperature max_tokens
        (match system_prompt with
         | EmptyString => None
         | String _ _ => Some system_prompt
         end) in
    let w' := World.mkWorld (World.clock_reads w)
                (World.requests w ++ [(url, payload)])%list (World.stdout w) in
    match World.post env (length (World.requests w)) url payload with
    | Returns response =>
        if (World.status_code response =? 200)%Z
        then
          match World.message_content response with
          | Returns content => (Returns content, w')
          | Raises e => (Raises (ordinary e), w')
          end
        else (Raises (Exception ("Error: " +:+ pretty (World.status_code response)
                                  +:+ " - " +:+ World.text response)), w')
    | Raises e => (Raises (ordinary e), w')
    end.

End OllamaClient.

(** ** agent.py *)

Module Agent.

Record t := mkAgent {
  client : OllamaClient.t;
  model : string;
  memory : Memory.t;
  tools : list Tool.t;
  verbose : bool;
  system_prompt : string
}.

(** [bool(v)] *)
Definition truthy (v : Json.value) : bool :=
  match v with
  | Json.Null => false
  | Json.Bool b => b
  | Json.Int z => negb (z =? 0)%Z
  | Json.Str s => negb (String.eqb s EmptyString)
  | Json.Arr items => negb (Nat.eqb (length items) 0)
  | Json.Obj pairs => negb (Nat.eqb (length pairs) 0)
  end.

Definition _create_default_system_prompt (tools : list Tool.t) : string :=
  let tools_description :=
    String.concat (String (ascii_of_nat 10) EmptyString)
      (map (fun tool => "- " +:+ Tool.name tool +:+ ": " +:+ Tool.description tool) tools) in
  "You are a helpful AI assistant that can use tools to assist the user. 
        
AVAILABLE TOOLS:
" +:+ tools_description +:+ dq "

To use a tool, respond with a JSON object in the following format:{`tool`:`tool_name`,`parameters`:{`param1`:`value1`,`param2`:`value2`}}

If you don't need to use a tool, just respond normally.
If a user requests something that would be better handled by a tool, use the appropriate tool.
Always provide thoughtful, helpful responses and prioritize solving the user's problem.".

(** The state a method runs in: the agent object and the world. *)
Record State := mkState { self : t; world : World.t }.

(** [self.memory.add_message(role, content)] *)
Definition memory_add_message (env : World.oracle) (role content : string)
  : M State unit :=
  modify (fun st =>
    let a := self st in
    let w := world st in
    let now := World.now env (World.clock_reads w) in
    mkState
      (mkAgent (client a) (model a) (Memory.add_message (memory a) role content now)
               (tools a) (verbose a) (system_prompt a))
      (World.mkWorld (S (World.clock_reads w)) (World.requests w) (World.stdout w))).

(** [self.client.chat(model=self.model, messages=messages,
    system_prompt=self.system_prompt, temperature=0.7)] *)
Definition client_chat (env : World.oracle) (messages : list Memory.ChatMessage)
  : M State string :=
  fun st =>
    let a := self st in
    let '(r, w') :=
      OllamaClient.chat env (client a) (model a) messages (system_prompt a)
        0x1.6666666666666p-1%float 1000%Z (world st) in
    (r, mkState a w').

(** [print(colored(text, colour))] *)
Definition print_colored (text colour : string) : M State unit :=
  modify (fun st =>
    let w := world st in
    mkState (self st)
      (World.mkWorld (World.clock_reads w) (World.requests w)
         (World.stdout w ++ [(text, colour)])%list)).

(** [Agent.__init__]; [tools or STANDARD_TOOLS] takes the standard tools
    for [None] and for the empty list. *)
Definition __init__ (env : World.oracle) (model : string)
    (system_prompt : option string) (tools : option (list Tool.t))
    (verbose : bool) : M World.t t :=
  fun w =>
    let client := OllamaClient.__init__ in
    let memory := Memory.__init__ Memory.default_max_tokens in
    let tools :=
      match tools with
      | Some (tool :: rest) => tool :: rest
      | Some [] | None => STANDARD_TOOLS env
      end in
    let system_prompt :=
      match system_prompt with
      | None => _create_default_system_prompt tools
      | Some p => p
      end in
    let st := mkState (mkAgent client model memory tools verbose system_prompt) w in
    let '(r, st') := memory_add_message env "system" system_prompt st in
    (_ ← r; Returns (self st'), world st').

Definition json_pattern : string :=
  dq "\{\\s*\`tool\`\\s*:\\s*\`([^\`]+)\`\\s*,\\s*\`parameters\`\\s*:\\s*\\{([^}]+)\\}\\s*\\}".

(** The body of [_extract_tool_call] for a given [json_pattern]; [None]
    is [Json.Null]. [json.loads] of a text that opens with a brace gives
    a dict or raises, so [tool_call.get] is always defined where it is
    reached. *)
Definition extract_tool_call_with (json_pattern response : string)
  : outcome (Json.value * Json.value * string) :=
  match_ ← Re.search json_pattern response;
  match match_ with
  | Some m =>
      try_except
        (let json_str := Re.group0 m in
         tool_call ← Json.loads json_str;
         match tool_call with
         | Json.Obj d =>
             let tool_name := default Json.Null (dict_get d "tool") in
             let parameters := default (Json.Obj []) (dict_get d "parameters") in
             let cleaned_response := replace response json_str "" in
             Returns (tool_name, parameters, cleaned_response)
         | _ => Raises (Exn "AttributeError" "get")
         end)
        "JSONDecodeError"
        (Returns (Json.Null, Json.Null, response))
  | None => Returns (Json.Null, Json.Null, response)
  end.

Definition _extract_tool_call (response : string)
  : outcome (Json.value * Json.value * string) :=
  extract_tool_call_with json_pattern response.

(** The loop of [_execute_tool] over [self.tools]. *)
Fixpoint _execute_tool (tools : list Tool.t) (tool_name : string)
    (parameters : Json.value) : outcome string :=
  match tools with
  | tool :: rest =>
      if String.eqb (Tool.name tool) tool_name then
        try_except_Exception
          (Tool.__call__ tool parameters)
          (fun e =>
             cause ← str e;
             Returns ("Error executing tool '" +:+ tool_name +:+ "': " +:+ cause))
      else _execute_tool rest tool_name parameters
  | [] => Returns ("Unknown tool: " +:+ tool_name)
  end.

(** A truthy [tool_name] is passed on as the [str] that the signature of
    [_execute_tool] asks for. *)
Definition as_str (v : Json.value) : outcome string :=
  match v with
  | Json.Str s => Returns s
  | _ => Raises (NotModelled "tool_name is not a str")
  end.

(** The body of [process_user_input]; [extract] stands for
    [self._extract_tool_call]. *)
Definition process_user_input_with
    (extract : string -> outcome (Json.value * Json.value * string))
    (env : World.oracle) (user_input : string) : M State string :=
  memory_add_message env "user" user_input;;
  messages ← gets (fun st => Memory.get_chat_messages (memory (self st)));
  response ← client_chat env messages;
  '(tool_name, parameters, cleaned_response) ← lift (extract response);
  if truthy tool_name then
    tool_name ← lift (as_str tool_name);
    tools ← gets (fun st => tools (self st));
    tool_response ← lift (_execute_tool tools tool_name parameters);
    memory_add_message env "assistant" cleaned_response;;
    memory_add_message env "system"
      ("Tool '" +:+ tool_name +:+ "' output: " +:+ tool_response);;
    messages ← gets (fun st => Memory.get_chat_messages (memory (self st)));
    final_response ← client_chat env messages;
    memory_add_message env "assistant" final_response;;
    verbose ← gets (fun st => verbose (self st));
    (if verbose : bool then
       print_colored (String (ascii_of_nat 10) "Used tool: " +:+ tool_name) "yellow";;
       print_colored ("Tool response: " +:+ tool_response) "yellow"
     else mret tt);;
    mret final_response
  else
    memory_add_message env "assistant" response;;
    mret response.

Definition process_user_input (env : World.oracle) (user_input : string)
  : M State string :=
  process_user_input_with _extract_tool_call env user_input.

Definition reset (env : World.oracle) : M State unit :=
  modify (fun st =>
    let a := self st in
    mkState (mkAgent (client a) (model a) (Memory.clear (memory a)) (tools a)
                     (verbose a) (system_prompt a)) (world st));;
  prompt ← gets (fun st => system_prompt (self st));
  memory_add_message env "system" prompt.

End Agent.

(** ** examples/chat_agent.py *)

Module ChatAgent.

(** A [ChatAgent] is an [Agent] with one attribute more. *)
Record t := mkChatAgent { base : Agent.t; personality : string }.

Record State := mkState { self : t; world : World.t }.

Definition personalities : list (string * string) := [
  ("friendly",
   "You are friendly, warm, and engaging. You use a conversational tone with occasional humor and emoticons.");
  ("professional",
   "You are professional, clear, and concise. You maintain a formal tone and prioritize accuracy and efficiency.");
  ("creative",
   "You are creative, imaginative, and inspirational. You use vivid language, metaphors, and diverse perspectives.");
  ("supportive",
   "You are supportive, empathetic, and understanding. You acknowledge emotions and provide encouragement.")
].

(** The prompt built around [selected_personality], in [__init__] and in
    [change_personality] alike. *)
Definition chat_prompt (selected_personality : string) : string :=
  selected_personality +:+ "
        
        As a conversational assistant, your primary goal is to engage in natural, helpful dialogue.
        
        Guidelines for conversation:
        1. Listen carefully and respond directly to the user's messages
        2. Maintain context throughout the conversation
        3. Ask clarifying questions when needed
        4. Provide concise responses unless detail is requested
        5. Be respectful, inclusive, and considerate
        
        You should aim to be helpful while maintaining a natural conversational flow.
        Avoid unnecessarily formal or robotic responses.
        ".

(** [d[k]] *)
Definition getitem {V} (d : list (string * V)) (k : string) : outcome V :=
  match dict_get d k with
  | Some v => Returns v
  | None => Raises (Exn "KeyError" k)
  end.

(** A method of [Agent] called on a [ChatAgent]. *)
Definition as_agent {A} (c : M Agent.State A) : M State A :=
  fun st =>
    let '(r, st') := c (Agent.mkState (base (self st)) (world st)) in
    (r, mkState (mkChatAgent (Agent.self st') (personality (self st))) (Agent.world st')).

Definition __init__ (env : World.oracle) (model : string) (verbose : bool)
    (personality : string) : M World.t t :=
  fun w =>
    match getitem personalities "friendly" with
    | Returns friendly =>
        let selected_personality := default friendly (dict_get personalities personality) in
        let '(r, w') :=
          Agent.__init__ env model (Some (chat_prompt selected_personality))
            (Some (STANDARD_TOOLS env)) verbose w in
        (agent ← r; Returns (mkChatAgent agent personality), w')
    | Raises e => (Raises e, w)
    end.

Definition change_personality (env : World.oracle) (new_personality : string)
  : M State string :=
  match dict_get personalities new_personality with
  | None =>
      mret ("Personality '" +:+ new_personality
            +:+ "' not recognized. Available personalities: "
            +:+ String.concat ", " (map fst personalities))
  | Some selected_personality =>
      modify (fun st => mkState (mkChatAgent (base (self st)) new_personality) (world st));;
      let new_system_prompt := chat_prompt selected_personality in
      as_agent (Agent.reset env);;
      modify (fun st =>
        let a := base (self st) in
        mkState
          (mkChatAgent
             (Agent.mkAgent (Agent.client a) (Agent.model a) (Agent.memory a)
                (Agent.tools a) (Agent.verbose a) new_system_prompt)
             (personality (self st)))
          (world st));;
      as_agent (Agent.memory_add_message env "system" new_system_prompt);;
      mret ("Personality changed to '" +:+ new_personality +:+ "'.")
  end.

End ChatAgent.

(** ** run_agent.py

    The session reads its lines from a script of the standard input;
    [input] raises [EOFError] when the script is used up. No interrupt
    arrives from outside while it runs: the handler of
    [KeyboardInterrupt] in [main] is reached only by an exception of that
    class that the code itself raises. *)

Module RunAgent.

(** [c.lower()] for one code point below U+0100. *)
Definition lower_char (c : ascii) : ascii :=
  let n := nat_of_ascii c in
  if ((65 <=? n) && (n <=? 90) || (192 <=? n) && (n <=? 214)
      || (216 <=? n) && (n <=? 222))%nat
  then ascii_of_nat (n + 32) else c.

(** [s.lower()] *)
Fixpoint lower (s : string) : string :=
  match s with
  | EmptyString => EmptyString
  | String c s' => String (lower_char c) (lower s')
  end.

(** [try: body / except Exception as e: handler(e)], in a state. *)
Definition try_except_Exception_M {S A} (body : M S A) (handler : exn -> M S A)
  : M S A :=
  fun st =>
    match body st with
    | (Returns a, st') => (Returns a, st')
    | (Raises e, st') => if is_Exception e then handler e st' else (Raises e, st')
    end.

(** The prompt that [input(colored(text, colour))] writes; it is logged
    like printed text, without the line end that [print] adds. *)
Definition show_prompt (text colour : string) : M Agent.State unit :=
  Agent.print_colored text colour.

Definition newline : string := String (ascii_of_nat 10) EmptyString.

(** The [while True] loop of [main], one line of the script per
    iteration. *)
Fixpoint session (env : World.oracle) (stdin : list string) : M Agent.State unit :=
  match stdin with
  | [] =>
      show_prompt "You: " "green";;
      lift (Raises (Exn "EOFError" "EOF when reading a line"))
  | user_input :: rest =>
      show_prompt "You: " "green";;
      if existsb (String.eqb (lower user_input)) ["exit"; "quit"] then
        Agent.print_colored (newline +:+ "Goodbye!") "cyan"
      else if String.eqb (lower user_input) "reset" then
        Agent.reset env;;
        Agent.print_colored "Conversation reset." "yellow";;
        session env rest
      else
        try_except_Exception_M
          (response ← Agent.process_user_input env user_input;
           Agent.print_colored (newline +:+ "Agent: " +:+ response) "blue")
          (fun e =>
             cause ← lift (str e);
             Agent.print_colored (newline +:+ "Error: " +:+ cause) "red");;
        session env rest
  end.

(** [print(colored(text, colour))] before the agent exists. *)
Definition print_colored (text colour : string) : M World.t unit :=
  modify (fun w =>
    World.mkWorld (World.clock_reads w) (World.requests w)
      (World.stdout w ++ [(text, colour)])%list).

(** Code that works on the agent just made. *)
Definition with_agent {A} (agent : Agent.t) (c : M Agent.State A) : M World.t A :=
  fun w =>
    let '(r, st) := c (Agent.mkState agent w) in
    (r, Agent.world st).

(** [try: body / except cls: handler], in a state, for a class [cls]
    without subclasses. *)
Definition try_except_M {S A} (body : M S A) (cls : string) (handler : M S A)
  : M S A :=
  fun st =>
    match body st with
    | (Returns a, st') => (Returns a, st')
    | (Raises e, st') =>
        if String.eqb (exn_class e) cls then handler st' else (Raises e, st')
    end.

(** [main], for the parsed arguments [model] and [verbose];
    [sys.exit(0)] raises [SystemExit]. *)
Definition main (env : World.oracle) (model : string) (verbose : bool)
    (stdin : list string) : M World.t unit :=
  print_colored (newline +:+ "===== Ollama Agent =====" +:+ newline) "cyan";;
  print_colored ("Using model: " +:+ model) "cyan";;
  print_colored "Type 'exit' or 'quit' to end the session." "cyan";;
  print_colored "Type 'reset' to reset the conversation." "cyan";;
  print_colored newline "cyan";;
  try_except_M
    (agent ← Agent.__init__ env model None None verbose;
     with_agent agent (session env stdin))
    "KeyboardInterrupt"
    (print_colored (newline +:+ newline +:+ "Session terminated by user.") "cyan";;
     lift (Raises (BaseExn "SystemExit" "0"))).

End RunAgent.

(** ** Vocabulary of the properties *)

Local Open Scope list_scope.
Local Open Scope nat_scope.

(** One call of [add_message]: its arguments and the clock value read. *)
Record call := mkCall { c_role : string; c_content : string; c_now : string }.

Definition message_of (c : call) : Memory.Message :=
  Memory.mkMessage (c_role c) (c_content c) (c_now c).

(** A sequence of [add_message] calls, from the memory [m]. *)
Definition add_messages (m : Memory.t) (calls : list call) : Memory.t :=
  fold_left (fun m c => Memory.add_message m (c_role c) (c_content c) (c_now c))
    calls m.

(** The size of the retained messages, added up afresh in order. *)
Definition recomputed_token_count (msgs : list Memory.Message) : float :=
  fold_left (fun total msg => total + Memory.token_estimate (Memory.content msg))%float
    msgs 0%float.

(** The messages that an [add_message] call evicts: the front of the
    sequence as it was with the new message appended, down to what is
    held afterwards. *)
Definition evicted_by (m : Memory.t) (c : call) : list Memory.Message :=
  let appended := Memory.messages m ++ [message_of c] in
  take (length appended
        - length (Memory.messages
                    (Memory.add_message m (c_role c) (c_content c) (c_now c))))
    appended.

(** [self.token_count -= len(removed_message.content.split()) * 1.3] for
    each message of [evicted], oldest first. *)
Definition subtract_estimates (count : float) (evicted : list Memory.Message) : float :=
  fold_left (fun count removed_message =>
               count - Memory.token_estimate (Memory.content removed_message))%float
    evicted count.

(** The last [n] elements of a list, all of them when it is shorter. *)
Definition last_n {A} (n : nat) (l : list A) : list A := drop (length l - n) l.

(** The text of the claim about the parser, and what it asks for. *)
Definition wellformed_call : string := dq "{`tool`:`X`,`parameters`:{`a`:`b`}}".

(** [json_pattern] as [re] reads it. *)
Definition json_items : list Re.item :=
  Eval vm_compute in default [] (Re.compile Agent.json_pattern).

(** [json_pattern] with every doubled backslash written once. *)
Definition undoubled_pattern : string := replace Agent.json_pattern "\\" "\".

(** The generation call of a turn, issued from the state [st]. *)
Definition generation_call (env : World.oracle) (st : Agent.State)
  : outcome string * Agent.State :=
  Agent.client_chat env (Memory.get_chat_messages (Agent.memory (Agent.self st))) st.

(** The state of a turn once the user message is in memory. *)
Definition user_message_added (env : World.oracle) (user_input : string)
    (st : Agent.State) : Agent.State :=
  (Agent.memory_add_message env "user" user_input st).2.

(** Scenario B: a registry with one tool, [calculate], that returns
    [Result: 4]; a backend that answers the first request with the
    tool call and any later one with [followup_response]. *)
Definition calculate_tool : Tool.t :=
  Tool.mkTool "calculate" "Evaluate a mathematical expression"
    (fun _ => Returns "Result: 4").

Definition primary_response : string :=
  dq "I will compute this. {`tool`:`calculate`,`parameters`:{`expression`:`2+2`}}".

Definition scenario_env (followup_response : string) : World.oracle :=
  World.mkOracle
    (fun n => "2026-01-01T00:00:0" +:+ pretty n)
    (fun n _ _ =>
       Returns (World.mkResponse 200 ""
         (Returns (match n with O => primary_response | S _ => followup_response end))))
    (fun _ _ => Raises (Exception "not called")).

Definition scenario_state (env : World.oracle) (tools : list Tool.t) : Agent.State :=
  match Agent.__init__ env "llama3" None (Some tools) false World.initial with
  | (Returns a, w) => Agent.mkState a w
  | (Raises _, w) =>
      Agent.mkState
        (Agent.mkAgent OllamaClient.__init__ "" (Memory.__init__ 0) [] false "") w
  end.

(** The same backend, out of reach from the second request on. *)
Definition followup_fails_env : World.oracle :=
  World.mkOracle
    (fun n => "2026-01-01T00:00:0" +:+ pretty n)
    (fun n _ _ =>
       match n with
       | O => Returns (World.mkResponse 200 "" (Returns primary_response))
       | S _ => Raises (Exn "ConnectionError" "Connection refused")
       end)
    (fun _ _ => Raises (Exception "not called")).

(** A backend that cannot be reached, and one that answers 500. *)
Definition unreachable_env : World.oracle :=
  World.mkOracle (fun n => "t" +:+ pretty n)
    (fun _ _ _ => Raises (Exn "ConnectionError" "Connection refused"))
    (fun _ _ => Raises (Exception "not called")).

Definition failing_env : World.oracle :=
  World.mkOracle (fun n => "t" +:+ pretty n)
    (fun _ _ _ => Returns (World.mkResponse 500 "internal error" (Raises (Exn "KeyError" "'message'"))))
    (fun _ _ => Raises (Exception "not called")).

(** A tool whose function raises. *)
Definition broken_tool : Tool.t :=
  Tool.mkTool "read_file" "Read content from a file"
    (fun _ => Raises (Exn "PermissionError" "[Errno 13] Permission denied")).

(** A tool whose function calls [sys.exit(1)]: [SystemExit] is not an
    [Exception]. *)
Definition exiting_tool : Tool.t :=
  Tool.mkTool "quit" "Leave the program"
    (fun _ => Raises (BaseExn "SystemExit" "1")).

(** A tool that raises an error whose [__str__] raises in turn. *)
Definition unprintable_tool : Tool.t :=
  Tool.mkTool "render" "Render a template"
    (fun _ => Raises (ExnStrRaises "TemplateError"
                        (Exn "TypeError" "__str__ returned non-string (type NoneType)"))).

(** Two tools of one name. *)
Definition second_calculate_tool : Tool.t :=
  Tool.mkTool "calculate" "Another calculator" (fun _ => Returns "Result: 5").

(** Construction is rejected: [Agent.__init__] raises. *)
Definition construction_rejected (env : World.oracle) (model : string)
    (system_prompt : option string) (tools : list Tool.t) (verbose : bool)
    (w : World.t) : Prop :=
  ∃ e w', Agent.__init__ env model system_prompt (Some tools) verbose w = (Raises e, w').

(** Four appends under a budget of 5: a three-word system prompt, then
    three one-word messages. *)
Definition four_calls : list call := [
  mkCall "system" "You are helpful" "t0";
  mkCall "user" "hi" "t1";
  mkCall "assistant" "hello" "t2";
  mkCall "user" "bye" "t3"
].

(** Three messages whose counter is far above the budget. *)
Definition over_budget : Memory.t :=
  Memory.mkMemory (map message_of (take 3 four_calls)) 5 0x1.f4p+9%float.

(** [c in s] *)
Fixpoint contains_char (c : ascii) (s : string) : bool :=
  match s with
  | EmptyString => false
  | String c' s' => Ascii.eqb c' c || contains_char c s'
  end.

(** A backend that is out of reach for the first request and answers
    [Hi!] from the second on. *)
Definition flaky_env : World.oracle :=
  World.mkOracle (fun n => "t" +:+ pretty n)
    (fun n _ _ =>
       match n with
       | O => Raises (Exn "ConnectionError" "Connection refused")
       | S _ => Returns (World.mkResponse 200 "" (Returns "Hi!"))
       end)
    (fun _ _ => Raises (Exception "not called")).

(** The request that a generation call issued from the state [st]
    sends. *)
Definition turn_request (st : Agent.State) : string * World.Payload :=
  let a := Agent.self st in
  (OllamaClient.base_url (Agent.client a) +:+ "/api/chat",
   World.mkPayload (Agent.model a) (Memory.get_chat_messages (Agent.memory a))
     false 0x1.6666666666666p-1%float 1000%Z
     (match Agent.system_prompt a with
      | EmptyString => None
      | String _ _ => Some (Agent.system_prompt a)
      end)).

(** The line of the default system prompt that advertises a tool. *)
Definition tool_line (tool : Tool.t) : string :=
  "- " +:+ Tool.name tool +:+ ": " +:+ Tool.description tool.




(** ** Memory: what eviction keeps *)

Section Eviction.

Import Memory.

Lemma prune_loop_spec max count msgs :
  ∃ evicted,
    msgs = evicted ++ (prune_loop max count msgs).1
    ∧ (evicted = [] → (prune_loop max count msgs).2 = count)
    ∧ (length msgs ≤ 3 → evicted = [])
    ∧ (3 ≤ length msgs → 3 ≤ length (prune_loop max count msgs).1).
Proof.
  revert count. induction msgs as [|removed rest IH]; intros count.
  - exists []. simpl. repeat split; auto; lia.
  - cbn [prune_loop].
    destruct (float_gt_int count max && (3 <? length (removed :: rest))%nat) eqn:Hgo.
    + apply andb_true_iff in Hgo as [_ Hlen%Nat.ltb_lt]. simpl in Hlen.
      destruct (IH (count - token_estimate (content removed))%float)
        as (evicted & Heq & _ & _ & Hkeep).
      exists (removed :: evicted). simpl. repeat split.
      * by rewrite <- Heq.
      * discriminate.
      * lia.
      * intros _. apply Hkeep. lia.
    + exists []. simpl. repeat split; auto.
Qed.

Lemma prune_suffix (m : t) : messages (_prune_if_needed m) `suffix_of` messages m.
Proof.
  unfold _prune_if_needed.
  destruct (prune_loop_spec (max_tokens m) (token_count m) (messages m))
    as (evicted & Heq & _).
  destruct (prune_loop _ _ _) as [msgs count]. simpl in *. by exists evicted.
Qed.

Lemma prune_keeps_three (m : t) :
  3 ≤ length (messages m) → 3 ≤ length (messages (_prune_if_needed m)).
Proof.
  unfold _prune_if_needed.
  destruct (prune_loop_spec (max_tokens m) (token_count m) (messages m))
    as (_ & _ & _ & _ & Hkeep).
  destruct (prune_loop _ _ _) as [msgs count]. simpl in *. exact Hkeep.
Qed.

Lemma prune_at_most_three (m : t) :
  length (messages m) ≤ 3 → _prune_if_needed m = m.
Proof.
  intros Hlen. unfold _prune_if_needed.
  destruct (prune_loop_spec (max_tokens m) (token_count m) (messages m))
    as (evicted & Heq & Hcount & Hnone & _).
  destruct (prune_loop _ _ _) as [msgs count]. simpl in *.
  specialize (Hnone Hlen). subst evicted. simpl in Heq.
  rewrite (Hcount eq_refl), <- Heq. by destruct m.
Qed.

(** Either nothing is evicted and the counter is untouched, or the
    sequence gets strictly shorter. *)
Lemma prune_length (m : t) :
  length (messages (_prune_if_needed m)) ≤ length (messages m)
  ∧ (length (messages (_prune_if_needed m)) = length (messages m) →
     _prune_if_needed m = m).
Proof.
  unfold _prune_if_needed.
  destruct (prune_loop_spec (max_tokens m) (token_count m) (messages m))
    as (evicted & Heq & Hcount & _).
  destruct (prune_loop _ _ _) as [msgs count]. simpl in *.
  split.
  - rewrite Heq, length_app. lia.
  - intros Hlen. rewrite Heq, length_app in Hlen.
    destruct evicted; [|simpl in Hlen; lia].
    simpl in Heq. rewrite (Hcount eq_refl), <- Heq. by destruct m.
Qed.

Lemma add_message_messages (m : t) role content now :
  messages (add_message m role content now)
    `suffix_of` messages m ++ [mkMessage role content now].
Proof. unfold add_message. apply (prune_suffix (mkMemory _ _ _)). Qed.

Lemma add_message_keeps_three (m : t) role content now :
  3 ≤ length (messages m) → 3 ≤ length (messages (add_message m role content now)).
Proof.
  intros Hlen. unfold add_message. apply prune_keeps_three. simpl.
  rewrite length_app. lia.
Qed.

Lemma add_message_max_tokens (m : t) role content now :
  max_tokens (add_message m role content now) = max_tokens m.
Proof.
  unfold add_message, _prune_if_needed. simpl. by destruct (prune_loop _ _ _).
Qed.

Lemma add_messages_snoc (m : t) calls c :
  add_messages m (calls ++ [c])
  = add_message (add_messages m calls) (c_role c) (c_content c) (c_now c).
Proof. unfold add_messages. by rewrite fold_left_app. Qed.

Lemma add_messages_keeps_three (m : t) calls :
  3 ≤ length (messages m) → 3 ≤ length (messages (add_messages m calls)).
Proof.
  intros Hlen. induction calls as [|c calls IH] using rev_ind; [done|].
  rewrite add_messages_snoc. by apply add_message_keeps_three.
Qed.

Lemma add_messages_suffix (m : t) calls :
  messages (add_messages m calls) `suffix_of` messages m ++ map message_of calls.
Proof.
  induction calls as [|c calls IH] using rev_ind.
  - simpl. by rewrite app_nil_r.
  - rewrite add_messages_snoc, map_app, app_assoc. simpl.
    etrans; [apply add_message_messages|]. by apply suffix_app.
Qed.

(** From an empty memory, the first three appends evict nothing. *)
Lemma add_messages_length (m : t) calls :
  min 3 (length (messages m) + length calls)
    ≤ length (messages (add_messages m calls)).
Proof.
  induction calls as [|c calls IH] using rev_ind.
  - unfold add_messages. cbn [fold_left length]. lia.
  - rewrite add_messages_snoc, length_app. cbn [length].
    set (m' := add_messages m calls) in *.
    destruct (decide (3 ≤ length (messages m'))) as [Hge|Hlt].
    + pose proof (add_message_keeps_three m' (c_role c) (c_content c) (c_now c) Hge). lia.
    + unfold add_message.
      rewrite prune_at_most_three; cbn [messages]; rewrite length_app;
        cbn [length]; lia.
Qed.

End Eviction.

(** C3. For every memory holding at least three messages, whatever its
    counter and its budget, and for every sequence of [add_message]
    calls, at least three messages are held afterwards; and eviction
    leaves a memory of exactly three messages as it is, over budget or
    not. *)
Theorem memory_never_below_three (m : Memory.t) (calls : list call) :
  3 ≤ length (Memory.messages m) →
  3 ≤ length (Memory.messages (add_messages m calls))
  ∧ (length (Memory.messages m) = 3 → Memory._prune_if_needed m = m).
Proof.
  intros Hlen. split.
  - by apply add_messages_keeps_three.
  - intros Heq. apply prune_at_most_three. lia.
Qed.

Lemma memory_never_below_three_witness :
  3 ≤ length (Memory.messages over_budget)
  ∧ float_gt_int (Memory.token_count over_budget) (Memory.max_tokens over_budget) = true
  ∧ 3 ≤ length (Memory.messages (add_messages over_budget four_calls))
  ∧ (length (Memory.messages over_budget) = 3 →
     Memory._prune_if_needed over_budget = over_budget).
Proof.
  split; [simpl; lia|]. split; [vm_compute; reflexivity|].
  apply (memory_never_below_three over_budget four_calls). simpl. lia.
Defined.

(** C10. The messages held after any sequence of [add_message] calls are
    a suffix of the messages held before followed by the appended ones,
    in the order of the calls and unchanged: eviction only takes from the
    front. *)
Theorem retained_is_suffix_of_appended (m : Memory.t) (calls : list call) :
  ∃ evicted,
    Memory.messages m ++ map message_of calls
    = evicted ++ Memory.messages (add_messages m calls).
Proof. destruct (add_messages_suffix m calls) as [evicted Heq]. by exists evicted. Qed.

(** C5, as the code has it. The claim names the first three messages
    ever appended; the loop removes index 0, so those are the first to
    go. What is always kept is the other end: the last three messages
    appended (all of them, while there are fewer than three). *)
Theorem last_three_appended_are_retained (max : Z) (calls : list call) :
  last_n 3 (map message_of calls)
    `suffix_of` Memory.messages (add_messages (Memory.__init__ max) calls).
Proof.
  pose proof (add_messages_length (Memory.__init__ max) calls) as Hlen.
  destruct (add_messages_suffix (Memory.__init__ max) calls) as [evicted Heq].
  cbn [Memory.messages Memory.__init__ length app] in Hlen, Heq. unfold last_n.
  set (retained := Memory.messages (add_messages (Memory.__init__ max) calls)) in *.
  assert (length (map message_of calls) = length evicted + length retained) as Hsum
    by (by rewrite Heq, length_app).
  rewrite length_map in Hsum.
  rewrite Heq, length_app, drop_app_ge by lia.
  apply suffix_drop.
Qed.

(** C5, counterexample: under a budget of 5 the fourth append evicts the
    system prompt, the first message ever appended. *)
Lemma first_appended_message_is_evicted :
  let m := add_messages (Memory.__init__ 5) four_calls in
  Memory.messages m = map message_of (drop 1 four_calls)
  ∧ Memory.mkMessage "system" "You are helpful" "t0" ∉ Memory.messages m.
Proof.
  assert (Memory.messages (add_messages (Memory.__init__ 5) four_calls)
          = map message_of (drop 1 four_calls)) as Heq
    by (vm_compute; reflexivity).
  split; [exact Heq|]. cbv zeta. rewrite Heq. simpl. intros Hin.
  repeat (apply elem_of_cons in Hin as [Hin|Hin]; [discriminate Hin|]).
  by apply elem_of_nil in Hin.
Qed.

(** C4, counterexample: after the same four appends the counter holds
    (3.9 + 1.3 + 1.3 + 1.3) - 3.9 in binary64, which is two units in the
    last place below 1.3 + 1.3 + 1.3. *)
Lemma token_count_drifts :
  let m := add_messages (Memory.__init__ 5) four_calls in
  Memory.token_count m = 0x1.f333333333332p+1%float
  ∧ recomputed_token_count (Memory.messages m) = 0x1.f333333333334p+1%float
  ∧ PrimFloat.eqb (Memory.token_count m)
      (recomputed_token_count (Memory.messages m)) = false.
Proof. vm_compute. repeat split. Qed.

(** What the loop of [_prune_if_needed] leaves: the messages it was
    given without a front, and the counter with the estimate of each
    message of that front subtracted, oldest first. *)
Lemma prune_loop_accounting max count msgs :
  ∃ evicted,
    msgs = evicted ++ (Memory.prune_loop max count msgs).1
    ∧ (Memory.prune_loop max count msgs).2 = subtract_estimates count evicted.
Proof.
  revert count. induction msgs as [|removed rest IH]; intros count.
  - by exists [].
  - cbn [Memory.prune_loop].
    destruct (float_gt_int count max && (3 <? length (removed :: rest))).
    + destruct (IH (count - Memory.token_estimate (Memory.content removed))%float)
        as (evicted & Heq & Hcount).
      exists (removed :: evicted). split; [simpl; by rewrite <- Heq|exact Hcount].
    + by exists [].
Qed.

Lemma add_message_accounting (m : Memory.t) (c : call) :
  let after := Memory.add_message m (c_role c) (c_content c) (c_now c) in
  Memory.messages m ++ [message_of c] = evicted_by m c ++ Memory.messages after
  ∧ Memory.token_count after
    = subtract_estimates
        (Memory.token_count m + Memory.token_estimate (c_content c))%float
        (evicted_by m c).
Proof.
  destruct (prune_loop_accounting (Memory.max_tokens m)
              (Memory.token_count m + Memory.token_estimate (c_content c))%float
              (Memory.messages m ++ [message_of c])) as (evicted & Heq & Hcount).
  unfold evicted_by, Memory.add_message, Memory._prune_if_needed, message_of in *.
  cbn [Memory.messages Memory.max_tokens Memory.token_count] in *.
  destruct (Memory.prune_loop _ _ _) as [kept count]. cbn [fst snd] in *.
  cbn [Memory.messages Memory.token_count].
  rewrite Heq, length_app, Nat.add_sub, take_app_length. by split.
Qed.

Lemma token_count_without_eviction (max : Z) (calls : list call) :
  length (Memory.messages (add_messages (Memory.__init__ max) calls)) = length calls →
  Memory.token_count (add_messages (Memory.__init__ max) calls)
  = recomputed_token_count (Memory.messages (add_messages (Memory.__init__ max) calls)).
Proof.
  induction calls as [|c calls IH] using rev_ind; [done|].
  rewrite add_messages_snoc, length_app. cbn [length].
  set (m := add_messages (Memory.__init__ max) calls) in *.
  unfold Memory.add_message.
  set (m1 := Memory.mkMemory _ _ _).
  destruct (prune_length m1) as [Hle Hsame].
  pose proof (suffix_length _ _ (add_messages_suffix (Memory.__init__ max) calls)) as Hm.
  fold m in Hm. simpl in Hm. rewrite length_map in Hm.
  assert (length (Memory.messages m1) = length (Memory.messages m) + 1) as Hm1
    by (unfold m1; simpl; by rewrite length_app).
  intros Hlen.
  rewrite Hsame by lia. unfold m1 at 1 2. simpl.
  unfold recomputed_token_count. rewrite fold_left_app. simpl.
  f_equal. apply IH. lia.
Qed.

(** C4, as the code has it. Whatever the memory holds, an [add_message]
    call leaves the counter at its old value plus the estimate of the new
    message, minus the estimate of each message that the call evicts,
    subtracted one at a time, oldest first; the messages held afterwards
    are the old ones and the new one without the evicted front. From a
    new memory, as long as nothing has been evicted, the counter is
    exactly the sum, taken in order, of the estimates of the messages
    held. *)
Theorem token_count_accounts_for_evictions :
  (∀ (m : Memory.t) (c : call),
     let after := Memory.add_message m (c_role c) (c_content c) (c_now c) in
     Memory.messages m ++ [message_of c] = evicted_by m c ++ Memory.messages after
     ∧ Memory.token_count after
       = subtract_estimates
           (Memory.token_count m + Memory.token_estimate (c_content c))%float
           (evicted_by m c))
  ∧ (∀ (max : Z) (calls : list call),
       length (Memory.messages (add_messages (Memory.__init__ max) calls))
         = length calls →
       Memory.token_count (add_messages (Memory.__init__ max) calls)
       = recomputed_token_count
           (Memory.messages (add_messages (Memory.__init__ max) calls))).
Proof.
  split.
  - apply add_message_accounting.
  - apply token_count_without_eviction.
Qed.

Lemma token_count_accounts_for_evictions_witness :
  let m := add_messages (Memory.__init__ 5) (take 3 four_calls) in
  let c := mkCall "user" "bye" "t3" in
  evicted_by m c = [Memory.mkMessage "system" "You are helpful" "t0"]
  ∧ Memory.token_count (Memory.add_message m "user" "bye" "t3")
    = (Memory.token_count m + Memory.token_estimate "bye"
       - Memory.token_estimate "You are helpful")%float
  ∧ length (Memory.messages m) = length (take 3 four_calls)
  ∧ Memory.token_count m = recomputed_token_count (Memory.messages m).
Proof.
  intros m c.
  assert (evicted_by m c = [Memory.mkMessage "system" "You are helpful" "t0"])
    as Hevicted by (vm_compute; reflexivity).
  assert (length (Memory.messages m) = length (take 3 four_calls)) as Hlen
    by (vm_compute; reflexivity).
  split; [exact Hevicted|]. split; [|split; [exact Hlen|]].
  - pose proof (proj2 (proj1 token_count_accounts_for_evictions m c)) as Hcount.
    rewrite Hevicted in Hcount. exact Hcount.
  - exact (proj2 token_count_accounts_for_evictions 5%Z (take 3 four_calls) Hlen).
Defined.

(** C9. [get_last_n_messages(0)] slices with [[-0:]], which is the whole
    list: every message comes back, not none. *)
Theorem last_zero_messages_is_everything (m : Memory.t) :
  Memory.get_last_n_messages m 0 = Memory.get_chat_messages m.
Proof.
  unfold Memory.get_last_n_messages, Memory.get_chat_messages, slice_from.
  change (- 0 <? 0)%Z with false. cbv iota.
  by rewrite Z.min_l by lia.
Qed.

Lemma last_zero_messages_not_empty :
  Memory.get_last_n_messages (add_messages (Memory.__init__ 5) four_calls) 0
  = [Memory.mkChat "user" "hi"; Memory.mkChat "assistant" "hello";
     Memory.mkChat "user" "bye"].
Proof. vm_compute. reflexivity. Qed.

(** For [1 <= n] the slice is what the docstring says. *)
Lemma last_n_messages_positive (m : Memory.t) (n : Z) :
  (1 ≤ n)%Z →
  Memory.get_last_n_messages m n
  = map Memory.to_chat_message (last_n (Z.to_nat n) (Memory.messages m)).
Proof.
  intros Hn. unfold Memory.get_last_n_messages, slice_from, last_n.
  destruct (Z.ltb_spec (- n) 0); [|lia].
  f_equal. f_equal. lia.
Qed.

(** ** The parser: what [json_pattern] matches *)

Section Extraction.

Import Re.

Lemma substring_skip k n s : substring k n s = substring 0 n (skip k s).
Proof.
  revert s. induction k as [|k IH]; intros [|c s]; simpl; try done.
  by destruct n.
Qed.

(** A match found by the search starts [k] characters in, where the
    pattern matches at the head. *)
Lemma search_at_spec p whole pos s m :
  search_at p whole pos s = Some m →
  ∃ k n, match_here p (skip k s) = Some n ∧ m = mkMatch whole (pos + k) (pos + k + n).
Proof.
  revert pos. induction s as [|c s IH]; intros pos; simpl.
  - destruct (match_here p EmptyString) as [n|] eqn:Hhere; [|done].
    intros [= <-]. exists 0, n. split; [exact Hhere|]. by rewrite Nat.add_0_r.
  - destruct (match_here p (String c s)) as [n|] eqn:Hhere.
    + intros [= <-]. exists 0, n. split; [exact Hhere|]. by rewrite Nat.add_0_r.
    + intros (k & n & Hk & ->)%IH. exists (S k), n. split; [done|].
      f_equal; lia.
Qed.

Lemma match_here_One a p s n :
  match_here (One a :: p) s = Some n →
  ∃ c s' n', s = String c s' ∧ accepts a c = true
             ∧ match_here p s' = Some n' ∧ n = S n'.
Proof.
  destruct s as [|c s']; simpl; [done|].
  destruct (accepts a c) eqn:Hacc; [|done].
  destruct (match_here p s') as [n'|] eqn:Hrest; simpl; [|done].
  intros [= <-]. by exists c, s', n'.
Qed.

Lemma json_pattern_compiles : compile Agent.json_pattern = Some json_items.
Proof. vm_compute. reflexivity. Qed.

(** The pattern asks for a backslash right after the opening brace: the
    [\\s] of the raw string is a backslash followed by the letter s. *)
Lemma json_items_head :
  ∃ tail, json_items = One (Lit "{") :: One (Lit "\") :: Star (Lit "s") :: tail.
Proof. eexists. reflexivity. Qed.

Lemma json_match_opens s n :
  match_here json_items s = Some n →
  ∃ rest n', s = String "{" (String "\" rest) ∧ n = S (S n').
Proof.
  destruct json_items_head as [tail ->].
  intros (c1 & s1 & n1 & -> & Hc1 & Hrest & ->)%match_here_One.
  apply match_here_One in Hrest as (c2 & s2 & n2 & -> & Hc2 & _ & ->).
  cbn [accepts] in Hc1, Hc2.
  apply Ascii.eqb_eq in Hc1 as <-. apply Ascii.eqb_eq in Hc2 as <-.
  by exists s2, n2.
Qed.

(** No key of a JSON object starts with a backslash. *)
Lemma loads_brace_backslash x :
  Json.loads (String "{" (String "\" x))
  = Raises (Json.JSONDecodeError "Expecting property name enclosed in double quotes").
Proof. reflexivity. Qed.

(** Whatever the response, the parser reports no tool call. *)
Lemma extract_tool_call_finds_nothing response :
  Agent._extract_tool_call response = Returns (Json.Null, Json.Null, response).
Proof.
  unfold Agent._extract_tool_call, Agent.extract_tool_call_with, search.
  rewrite json_pattern_compiles. cbn [mbind outcome_bind].
  destruct (search_at json_items response 0 response) as [m|] eqn:Hsearch; [|done].
  apply search_at_spec in Hsearch as (k & n & Hhere & ->).
  apply json_match_opens in Hhere as (rest & n' & Hskip & ->).
  unfold group0. cbn [start stop string_]. change (0 + k) with k.
  replace (k + S (S n') - k) with (S (S n')) by lia.
  rewrite substring_skip, Hskip. cbn [substring].
  by rewrite loads_brace_backslash.
Qed.

End Extraction.

(** ** json.loads: the fuel is enough *)

Section JsonFuel.

Import Json.

Lemma skip_ws_length s : String.length (skip_ws s) ≤ String.length s.
Proof.
  induction s as [|c s IH]; cbn [skip_ws String.length]; [lia|].
  destruct (is_ws c); cbn [String.length]; lia.
Qed.

Lemma skip_length k s : String.length (skip k s) ≤ String.length s.
Proof.
  revert s. induction k as [|k IH]; intros [|c s]; cbn [skip String.length]; try lia.
  specialize (IH s). lia.
Qed.

(** [scanstring] needs no fuel, and what it leaves is no longer than
    what it was given. *)
Lemma scanstring_spec n : ∀ s acc,
  String.length s ≤ n →
  scanstring s acc ≠ Raises (NotModelled "fuel")
  ∧ ∀ str rest, scanstring s acc = Returns (str, rest) →
      String.length rest ≤ String.length s.
Proof.
  induction n as [|n IH]; intros [|c s] acc Hlen; cbn [String.length] in Hlen;
    try lia; cbn [scanstring]; try (split; [discriminate|intros ? ? [=]]).
  destruct (Ascii.eqb c dquote).
  { split; [discriminate|]. intros ? ? [= _ <-]. cbn [String.length]. lia. }
  destruct (Ascii.eqb c "\").
  - destruct s as [|esc s]; [split; [discriminate|intros ? ? [=]]|].
    cbn [String.length] in *.
    destruct (Ascii.eqb esc "u").
    + destruct s as [|h1 [|h2 [|h3 [|h4 rest]]]];
        try (split; [discriminate|intros ? ? [=]]).
      cbn [String.length] in *.
      destruct (hex4 h1 h2 h3 h4) as [k|]; [|split; [discriminate|intros ? ? [=]]].
      destruct (k <? 256); [|split; [discriminate|intros ? ? [=]]].
      destruct (IH rest (acc +:+ String (ascii_of_nat k) EmptyString)) as [Hfuel Hrest];
        [lia|].
      split; [exact Hfuel|]. intros str rest' Hret%Hrest. lia.
    + destruct (unescape esc) as [ch|]; [|split; [discriminate|intros ? ? [=]]].
      destruct (IH s (acc +:+ String ch EmptyString)) as [Hfuel Hrest]; [lia|].
      split; [exact Hfuel|]. intros str rest' Hret%Hrest. lia.
  - destruct (nat_of_ascii c <? 32); [split; [discriminate|intros ? ? [=]]|].
    destruct (IH s (acc +:+ String c EmptyString)) as [Hfuel Hrest]; [lia|].
    split; [exact Hfuel|]. intros str rest' Hret%Hrest. cbn [String.length]. lia.
Qed.

Lemma digits_length acc count s :
  String.length (digits acc count s).2 ≤ String.length s.
Proof.
  revert acc count. induction s as [|c s IH]; intros acc count; cbn [digits]; [done|].
  destruct (Re.is_digit c); [|done]. cbn [String.length].
  specialize (IH (acc * 10 + Z.of_nat (nat_of_ascii c - 48))%Z (S count)). lia.
Qed.

Lemma match_number_length s z b rest :
  match_number s = Some (z, b, rest) → String.length rest ≤ String.length s.
Proof.
  unfold match_number.
  repeat match goal with
  | |- context [digits ?a ?c ?r] =>
      let H := fresh "Hd" in
      pose proof (digits_length a c r) as H;
      destruct (digits a c r) as [[? ?] ?]; cbn [snd] in H
  | |- context [match ?x with EmptyString => _ | String _ _ => _ end] =>
      destruct x; cbn [String.length] in *
  | |- context [if ?x then _ else _] => destruct x
  | |- context [let '(_, _) := ?x in _] => destruct x
  end; try discriminate; intros [= _ _ <-]; cbn [String.length] in *; try lia;
  repeat match goal with
  | H : context [match ?x with EmptyString => _ | String _ _ => _ end] |- _ =>
      destruct x; cbn [String.length] in *
  | H : context [if ?x then _ else _] |- _ => destruct x
  end; cbn [String.length] in *; lia.
Qed.


Local Ltac leaf :=
  split; [discriminate|];
  try (intros ? ? [=]; fail);
  intros ? ? [= _ <-]; cbn [String.length] in *; try lia.

(** With two units of fuel for each character, and one more (two for
    [array_items]), the three decoders do not run out, and what they
    leave is no longer than what they were given. *)
Lemma scan_fuel fuel :
  (∀ s, 2 * String.length s + 1 ≤ fuel →
     scan_once fuel s ≠ Raises (NotModelled "fuel")
     ∧ ∀ v rest, scan_once fuel s = Returns (v, rest) →
         String.length rest ≤ String.length s)
  ∧ (∀ s pairs, 2 * String.length s + 1 ≤ fuel →
       object_pairs fuel s pairs ≠ Raises (NotModelled "fuel")
       ∧ ∀ v rest, object_pairs fuel s pairs = Returns (v, rest) →
           String.length rest ≤ String.length s)
  ∧ (∀ s items, 2 * String.length s + 2 ≤ fuel →
       array_items fuel s items ≠ Raises (NotModelled "fuel")
       ∧ ∀ v rest, array_items fuel s items = Returns (v, rest) →
           String.length rest ≤ String.length s).
Proof.
  induction fuel as [|fuel (IHscan & IHobject & IHarray)].
  { repeat split; intros; lia. }
  split; [|split].
  - intros [|c s'] Hfuel; cbn [scan_once]; [leaf|]. cbn [String.length] in Hfuel.
    destruct (Ascii.eqb c dquote).
    { destruct (scanstring_spec _ s' EmptyString (Nat.le_refl _)) as [Hnot Hrest].
      destruct (scanstring s' EmptyString) as [[str rest]|e]; cbn [mbind outcome_bind].
      - specialize (Hrest _ _ eq_refl). leaf.
      - split; [congruence|intros ? ? [=]]. }
    destruct (Ascii.eqb c "{").
    { pose proof (skip_ws_length s') as Hws.
      destruct (skip_ws s') as [|k s2]; [leaf|]. cbn [String.length] in Hws.
      destruct (Ascii.eqb k dquote).
      - destruct (IHobject s2 []) as [Hnot Hrest]; [lia|].
        split; [exact Hnot|]. intros v rest Hret%Hrest. cbn [String.length]. lia.
      - destruct (Ascii.eqb k "}"); leaf. }
    destruct (Ascii.eqb c "[").
    { pose proof (skip_ws_length s') as Hws.
      destruct (skip_ws s') as [|k s2] eqn:Hs1; [leaf|]. cbn [String.length] in Hws.
      destruct (Ascii.eqb k "]"); [leaf|].
      destruct (IHarray (String k s2) []) as [Hnot Hrest]; [cbn [String.length]; lia|].
      split; [exact Hnot|]. intros v rest Hret%Hrest. cbn [String.length] in *. lia. }
    destruct (startswith (String c s') "null").
    { split; [discriminate|]. intros v rest Hret.
      replace rest with (skip 4 (String c s')) by congruence. apply skip_length. }
    destruct (startswith (String c s') "true").
    { split; [discriminate|]. intros v rest Hret.
      replace rest with (skip 4 (String c s')) by congruence. apply skip_length. }
    destruct (startswith (String c s') "false").
    { split; [discriminate|]. intros v rest Hret.
      replace rest with (skip 5 (String c s')) by congruence. apply skip_length. }
    destruct (match_number (String c s')) as [[[z [|]] rest]|] eqn:Hnumber.
    + leaf.
    + apply match_number_length in Hnumber. split; [discriminate|].
      by intros ? ? [= _ <-].
    + destruct (_ || _); leaf.
  - intros s pairs Hfuel. cbn [object_pairs].
    destruct (scanstring_spec _ s EmptyString (Nat.le_refl _)) as [Hnot Hrest].
    destruct (scanstring s EmptyString) as [[key s1]|e]; cbn [mbind outcome_bind];
      [|split; [congruence|intros ? ? [=]]].
    specialize (Hrest _ _ eq_refl).
    pose proof (skip_ws_length s1) as Hws1.
    destruct (skip_ws s1) as [|colon s2]; [leaf|]. cbn [String.length] in Hws1.
    destruct (Ascii.eqb colon ":"); [|leaf].
    pose proof (skip_ws_length s2) as Hws2.
    destruct (IHscan (skip_ws s2)) as [Hnot3 Hrest3]; [lia|].
    destruct (scan_once fuel (skip_ws s2)) as [[v s3]|e]; cbn [mbind outcome_bind];
      [|split; [congruence|intros ? ? [=]]].
    specialize (Hrest3 _ _ eq_refl).
    pose proof (skip_ws_length s3) as Hws3.
    destruct (skip_ws s3) as [|nextchar s4]; [leaf|]. cbn [String.length] in Hws3.
    destruct (Ascii.eqb nextchar "}"); [leaf|].
    destruct (Ascii.eqb nextchar ","); [|leaf].
    pose proof (skip_ws_length s4) as Hws4.
    destruct (skip_ws s4) as [|q s5]; [leaf|]. cbn [String.length] in Hws4.
    destruct (Ascii.eqb q dquote); [|leaf].
    destruct (IHobject s5 (pairs ++ [(key, v)])) as [Hnot5 Hrest5]; [lia|].
    split; [exact Hnot5|]. intros v' rest Hret%Hrest5. lia.
  - intros s items Hfuel. cbn [array_items].
    destruct (IHscan s) as [Hnot Hrest]; [lia|].
    destruct (scan_once fuel s) as [[v s1]|e]; cbn [mbind outcome_bind];
      [|split; [congruence|intros ? ? [=]]].
    specialize (Hrest _ _ eq_refl).
    pose proof (skip_ws_length s1) as Hws1.
    destruct (skip_ws s1) as [|nextchar s2]; [leaf|]. cbn [String.length] in Hws1.
    destruct (Ascii.eqb nextchar "]"); [leaf|].
    destruct (Ascii.eqb nextchar ","); [|leaf].
    pose proof (skip_ws_length s2) as Hws2.
    destruct (IHarray (skip_ws s2) (items ++ [v])) as [Hnot2 Hrest2]; [lia|].
    split; [exact Hnot2|]. intros v' rest Hret%Hrest2. lia.
Qed.

(** [json.loads] decides every text: the fuel that [loads] hands to
    [scan_once] is never used up. *)
Lemma loads_fuel_suffices s : loads s ≠ Raises (NotModelled "fuel").
Proof.
  unfold loads. pose proof (skip_ws_length s) as Hws.
  destruct (proj1 (scan_fuel (2 * String.length s + 2)) (skip_ws s)) as [Hnot _]; [lia|].
  destruct (scan_once _ (skip_ws s)) as [[obj rest]|e]; cbn [mbind outcome_bind];
    [|congruence].
  by destruct (skip_ws rest).
Qed.

End JsonFuel.

(** ** The turn *)

Section Turn.

Import Agent.

(** A generation call leaves the agent as it is and issues one request. *)
Lemma generation_call_state env st :
  self (generation_call env st).2 = self st
  ∧ length (World.requests (world (generation_call env st).2))
    = S (length (World.requests (world st))).
Proof.
  unfold generation_call, client_chat, OllamaClient.chat.
  destruct (World.post env _ _ _) as [response|e];
    [destruct (_ =? _)%Z; [destruct (World.message_content response)|]|];
    cbn; rewrite length_app; cbn; split; (done || lia).
Qed.

(** The request is refused or fails on the way: [chat] raises. *)
Lemma chat_raises env client model messages system_prompt temperature max_tokens w :
  (∀ e, World.post env (length (World.requests w))
          (OllamaClient.base_url client +:+ "/api/chat")
          (World.mkPayload model messages false temperature max_tokens
             (match system_prompt with
              | EmptyString => None
              | String _ _ => Some system_prompt
              end)) = Raises e →
        (OllamaClient.chat env client model messages system_prompt temperature
           max_tokens w).1 = Raises (ordinary e))
  ∧ (∀ response, World.post env (length (World.requests w))
          (OllamaClient.base_url client +:+ "/api/chat")
          (World.mkPayload model messages false temperature max_tokens
             (match system_prompt with
              | EmptyString => None
              | String _ _ => Some system_prompt
              end)) = Returns response →
        World.status_code response ≠ 200%Z →
        (OllamaClient.chat env client model messages system_prompt temperature
           max_tokens w).1
        = Raises (Exception ("Error: " +:+ pretty (World.status_code response)
                              +:+ " - " +:+ World.text response))).
Proof.
  unfold OllamaClient.chat. split.
  - by intros e ->.
  - intros response -> Hstatus.
    by destruct (Z.eqb_spec (World.status_code response) 200).
Qed.

(** The whole turn: since the parser never reports a tool call, a turn
    is one generation call, and its answer, if any, is recorded. *)
Lemma process_user_input_unfold env user_input st :
  process_user_input env user_input st
  = match generation_call env (user_message_added env user_input st) with
    | (Returns response, st2) =>
        (Returns response, (memory_add_message env "assistant" response st2).2)
    | (Raises e, st2) => (Raises e, st2)
    end.
Proof.
  unfold process_user_input, process_user_input_with, generation_call,
    user_message_added.
  unfold mbind, M_bind, memory_add_message at 1 3, modify, gets. cbn [fst snd].
  destruct (client_chat env _ _) as [[response|e] st2]; [|done].
  unfold lift. rewrite extract_tool_call_finds_nothing. cbn [truthy].
  unfold memory_add_message, modify, mret, M_ret. done.
Qed.

End Turn.

(** C1. A response that holds the well-formed call, with any text before
    and after it, is returned whole and without a tool: the name [X],
    the parameters and the residual text asked for never come out. *)
Theorem wellformed_tool_call_is_missed (before after : string) :
  Agent._extract_tool_call (before +:+ wellformed_call +:+ after)
  = Returns (Json.Null, Json.Null, before +:+ wellformed_call +:+ after).
Proof. apply extract_tool_call_finds_nothing. Qed.

(** With the backslashes of [json_pattern] written once, the same body
    returns what the claim describes. *)
Lemma undoubled_pattern_finds_the_call :
  Agent.extract_tool_call_with undoubled_pattern
    ("Let me see. " +:+ wellformed_call +:+ " Done.")
  = Returns (Json.Str "X", Json.Obj [("a", Json.Str "b")], "Let me see.  Done.").
Proof. vm_compute. reflexivity. Qed.

(** What [json_pattern] does match, and why decoding it fails. *)
Lemma json_pattern_matches_backslashed_text :
  let response := dq "ok {\`tool`\:\`X`\,\`parameters`\:\\{`a`:`b`\}\\} ." in
  ∃ m, Re.search Agent.json_pattern response = Returns (Some m)
       ∧ Re.group0 m = dq "{\`tool`\:\`X`\,\`parameters`\:\\{`a`:`b`\}\\}"
       ∧ Agent._extract_tool_call response = Returns (Json.Null, Json.Null, response).
Proof. eexists. vm_compute. repeat split. Qed.

(** C2. Scenario B on the code: the tool call in the primary response is
    not seen, so the turn issues one request, records the primary
    response whole as the assistant message and returns it; no tool
    output and no follow-up are recorded. *)
Theorem scenario_B_stops_after_primary_response (followup_response : string) :
  let env := scenario_env followup_response in
  let turn := Agent.process_user_input env "compute 2+2"
                (scenario_state env [calculate_tool]) in
  turn.1 = Returns primary_response
  ∧ length (World.requests (Agent.world turn.2)) = 1
  ∧ length (Memory.messages (Agent.memory (Agent.self turn.2))) = 3
  ∧ last_n 2 (Memory.get_chat_messages (Agent.memory (Agent.self turn.2)))
    = [Memory.mkChat "user" "compute 2+2"; Memory.mkChat "assistant" primary_response].
Proof. vm_compute. repeat split. Qed.

(** The tool branch of [process_user_input], reached with the undoubled
    pattern, does what scenario B describes: two requests, the residual
    text, the tool output and the follow-up recorded in that order, and
    the follow-up returned. *)
Lemma scenario_B_with_undoubled_pattern :
  let env := scenario_env "The answer is 4." in
  let turn := Agent.process_user_input_with
                (Agent.extract_tool_call_with undoubled_pattern) env "compute 2+2"
                (scenario_state env [calculate_tool]) in
  turn.1 = Returns "The answer is 4."
  ∧ length (World.requests (Agent.world turn.2)) = 2
  ∧ last_n 3 (Memory.get_chat_messages (Agent.memory (Agent.self turn.2)))
    = [Memory.mkChat "assistant" "I will compute this. ";
       Memory.mkChat "system" "Tool 'calculate' output: Result: 4";
       Memory.mkChat "assistant" "The answer is 4."].
Proof. vm_compute. repeat split. Qed.

(** In that branch a failure of the follow-up call would leave the
    residual text and the tool output in memory. On the code as it is
    the branch is not reached, which is what C6 below rests on. *)
Lemma followup_failure_with_undoubled_pattern :
  let turn := Agent.process_user_input_with
                (Agent.extract_tool_call_with undoubled_pattern)
                followup_fails_env "compute 2+2"
                (scenario_state followup_fails_env [calculate_tool]) in
  turn.1 = Raises (Exn "ConnectionError" "Connection refused")
  ∧ last_n 3 (Memory.get_chat_messages (Agent.memory (Agent.self turn.2)))
    = [Memory.mkChat "user" "compute 2+2";
       Memory.mkChat "assistant" "I will compute this. ";
       Memory.mkChat "system" "Tool 'calculate' output: Result: 4"].
Proof. vm_compute. repeat split. Qed.

(** A response with a status other than 200 ends the turn in the same
    way, with the error that [chat] builds from it. *)
Lemma non_success_status_fails_the_turn :
  let st := scenario_state failing_env [calculate_tool] in
  (Agent.process_user_input failing_env "hello" st).1
    = Raises (Exception "Error: 500 - internal error")
  ∧ last_n 1 (Memory.get_chat_messages
       (Agent.memory (Agent.self (Agent.process_user_input failing_env "hello" st).2)))
    = [Memory.mkChat "user" "hello"].
Proof. vm_compute. split; reflexivity. Qed.

(** [_execute_tool] runs the first tool of the requested name inside
    its [try], and no other. *)
Lemma execute_tool_first_match tools tool_name parameters :
  Agent._execute_tool tools tool_name parameters
  = match find (fun tool => String.eqb (Tool.name tool) tool_name) tools with
    | Some tool =>
        try_except_Exception (Tool.func tool parameters)
          (fun e =>
             cause ← str e;
             Returns ("Error executing tool '" +:+ tool_name +:+ "': " +:+ cause))
    | None => Returns ("Unknown tool: " +:+ tool_name)
    end.
Proof.
  induction tools as [|tool rest IH]; cbn [Agent._execute_tool find]; [done|].
  by destruct (String.eqb (Tool.name tool) tool_name).
Qed.

Lemma find_tool_none tools tool_name :
  (∀ tool, tool ∈ tools → Tool.name tool ≠ tool_name) →
  find (fun tool => String.eqb (Tool.name tool) tool_name) tools = None.
Proof.
  induction tools as [|tool rest IH]; intros Hnone; cbn [find]; [done|].
  destruct (String.eqb_spec (Tool.name tool) tool_name) as [Hname|_].
  - destruct (Hnone tool); [left|done].
  - apply IH. intros tool' Hin. apply Hnone. by right.
Qed.

(** C7, counterexample: a tool that calls [sys.exit(1)] raises
    [SystemExit], which [except Exception] does not catch, and
    [_execute_tool] raises it. *)
Lemma execute_tool_raises_SystemExit :
  Agent._execute_tool [calculate_tool; exiting_tool] "quit" (Json.Obj [])
  = Raises (BaseExn "SystemExit" "1").
Proof. reflexivity. Qed.

(** C7, as the code has it. For a name that no tool has, [_execute_tool]
    returns [Unknown tool: <name>]. When the first tool of that name
    raises an error [e] of class [Exception] whose [str] returns, it
    returns [Error executing tool '<name>': <str(e)>]. It raises in two
    cases and no other: that tool raises an error that is not an
    [Exception], which passes through as it is, or it raises an
    [Exception] whose [str] raises, and that second error is raised. *)
Theorem execute_tool_catches_Exception
    (tools : list Tool.t) (tool_name : string) (parameters : Json.value) :
  ((∀ tool, tool ∈ tools → Tool.name tool ≠ tool_name) →
   Agent._execute_tool tools tool_name parameters
   = Returns ("Unknown tool: " +:+ tool_name))
  ∧ (∀ tool e cause,
       find (fun tool => String.eqb (Tool.name tool) tool_name) tools = Some tool →
       Tool.func tool parameters = Raises e →
       is_Exception e = true →
       str e = Returns cause →
       Agent._execute_tool tools tool_name parameters
       = Returns ("Error executing tool '" +:+ tool_name +:+ "': " +:+ cause))
  ∧ (∀ raised,
       Agent._execute_tool tools tool_name parameters = Raises raised ↔
       ∃ tool e,
         find (fun tool => String.eqb (Tool.name tool) tool_name) tools = Some tool
         ∧ Tool.func tool parameters = Raises e
         ∧ (is_Exception e = false ∧ raised = e
            ∨ is_Exception e = true ∧ str e = Raises raised)).
Proof.
  rewrite execute_tool_first_match. split; [|split].
  - intros Hnone. by rewrite find_tool_none.
  - intros tool e cause -> Hraise Hclass Hstr.
    unfold try_except_Exception. rewrite Hraise, Hclass.
    cbn [mbind outcome_bind]. by rewrite Hstr.
  - intros raised. split.
    + destruct (find _ tools) as [tool|]; [|done].
      unfold try_except_Exception.
      destruct (Tool.func tool parameters) as [result|e] eqn:Hraise; [done|].
      destruct (is_Exception e) eqn:Hclass.
      * destruct (str e) as [cause|e'] eqn:Hstr; [done|].
        intros [= <-]. exists tool, e. split; [done|]. split; [done|]. by right.
      * intros [= <-]. exists tool, e. split; [done|]. split; [done|]. by left.
    + intros (tool & e & -> & Hraise & [[Hclass ->]|[Hclass Hstr]]);
        unfold try_except_Exception; rewrite Hraise, Hclass; [done|].
      cbn [mbind outcome_bind]. by rewrite Hstr.
Qed.

Lemma execute_tool_catches_Exception_witness :
  let tools := [calculate_tool; broken_tool; exiting_tool; unprintable_tool] in
  (∀ tool, tool ∈ tools → Tool.name tool ≠ "search")
  ∧ Agent._execute_tool tools "search" (Json.Obj []) = Returns "Unknown tool: search"
  ∧ Agent._execute_tool tools "read_file" (Json.Obj [])
    = Returns "Error executing tool 'read_file': [Errno 13] Permission denied"
  ∧ Agent._execute_tool tools "quit" (Json.Obj []) = Raises (BaseExn "SystemExit" "1")
  ∧ Agent._execute_tool tools "render" (Json.Obj [])
    = Raises (Exn "TypeError" "__str__ returned non-string (type NoneType)").
Proof.
  intros tools.
  assert (∀ tool, tool ∈ tools → Tool.name tool ≠ "search") as Hnone.
  { intros tool Hin.
    repeat (apply elem_of_cons in Hin as [->|Hin]; [discriminate|]).
    by apply elem_of_nil in Hin. }
  split; [exact Hnone|]. split; [|split; [|split]].
  - exact (proj1 (execute_tool_catches_Exception tools "search" (Json.Obj [])) Hnone).
  - exact (proj1 (proj2 (execute_tool_catches_Exception tools "read_file" (Json.Obj [])))
             broken_tool (Exn "PermissionError" "[Errno 13] Permission denied")
             "[Errno 13] Permission denied" eq_refl eq_refl eq_refl eq_refl).
  - apply (proj2 (proj2 (execute_tool_catches_Exception tools "quit" (Json.Obj []))) _).
    exists exiting_tool, (BaseExn "SystemExit" "1").
    split; [reflexivity|]. split; [reflexivity|]. left. split; reflexivity.
  - apply (proj2 (proj2 (execute_tool_catches_Exception tools "render" (Json.Obj []))) _).
    exists unprintable_tool,
      (ExnStrRaises "TemplateError"
         (Exn "TypeError" "__str__ returned non-string (type NoneType)")).
    split; [reflexivity|]. split; [reflexivity|]. right. split; reflexivity.
Defined.

(** C8, counterexample: an agent is constructed from two tools that are
    both named [calculate]. *)
Lemma duplicate_tool_names_are_accepted :
  ¬ NoDup (map Tool.name [calculate_tool; second_calculate_tool])
  ∧ ¬ construction_rejected (scenario_env "") "llama3" None
        [calculate_tool; second_calculate_tool] false World.initial.
Proof.
  split.
  - intros Hnodup. apply NoDup_cons in Hnodup as [Hnotin _].
    apply Hnotin. simpl. left.
  - intros (e & w' & Hinit). vm_compute in Hinit. discriminate Hinit.
Qed.

(** C8, as the code has it. [Agent.__init__] checks nothing about the
    names: it succeeds for every tool list and keeps a non-empty list as
    given, duplicates included; a call by name goes to the first tool of
    that name and to no other. *)
Theorem construction_accepts_every_tool_list
    (env : World.oracle) (model : string) (system_prompt : option string)
    (tools : list Tool.t) (verbose : bool) (w : World.t) :
  (∃ agent w',
     Agent.__init__ env model system_prompt (Some tools) verbose w = (Returns agent, w')
     ∧ Agent.tools agent = match tools with [] => STANDARD_TOOLS env | _ :: _ => tools end)
  ∧ (∀ first rest parameters,
       Agent._execute_tool (first :: rest) (Tool.name first) parameters
       = Agent._execute_tool [first] (Tool.name first) parameters).
Proof.
  split.
  - unfold Agent.__init__, Agent.memory_add_message, modify. cbn.
    destruct tools; eexists _, _; split; reflexivity.
  - intros first rest parameters. cbn [Agent._execute_tool].
    by rewrite String.eqb_refl.
Qed.

(** ** Memory: the budget and the slices *)

Section Budget.

Import Memory.

Lemma prune_loop_unfold max count msgs :
  prune_loop max count msgs
  = if float_gt_int count max && (3 <? length msgs)
    then match msgs with
         | removed :: rest =>
             prune_loop max (count - token_estimate (content removed))%float rest
         | [] => (msgs, count)
         end
    else (msgs, count).
Proof. destruct msgs; [by destruct (_ && _)|done]. Qed.

(** The loop stops only when its condition fails. *)
Lemma prune_loop_exit max count msgs :
  float_gt_int (prune_loop max count msgs).2 max
  && (3 <? length (prune_loop max count msgs).1) = false.
Proof.
  revert count. induction msgs as [|removed rest IH]; intros count.
  - cbn. apply andb_false_r.
  - rewrite prune_loop_unfold.
    destruct (float_gt_int count max && (3 <? length (removed :: rest))) eqn:Hgo;
      [apply IH|exact Hgo].
Qed.

Lemma add_message_few (m : t) role content now :
  length (messages m) < 3 →
  add_message m role content now
  = mkMemory (messages m ++ [mkMessage role content now]) (max_tokens m)
      (token_count m + token_estimate content)%float.
Proof.
  intros Hlen. unfold add_message. apply prune_at_most_three.
  cbn [messages]. rewrite length_app. cbn [length]. lia.
Qed.

Lemma add_message_nonempty (m : t) role content now :
  1 ≤ length (messages (add_message m role content now)).
Proof.
  unfold add_message. set (m1 := mkMemory _ _ _).
  assert (1 ≤ length (messages m1)) as Hm1
    by (unfold m1; cbn [messages]; rewrite length_app; cbn [length]; lia).
  destruct (decide (length (messages m1) ≤ 3)) as [Hle|Hgt].
  - by rewrite prune_at_most_three.
  - pose proof (prune_keeps_three m1). lia.
Qed.

Lemma add_message_last (m : t) role content now :
  last (messages (add_message m role content now)) = Some (mkMessage role content now).
Proof.
  pose proof (add_message_nonempty m role content now) as Hlen.
  destruct (add_message_messages m role content now) as [evicted Heq].
  destruct (messages (add_message m role content now))
    as [|x retained _] using rev_ind; [simpl in Hlen; lia|].
  rewrite app_assoc in Heq. apply app_inj_tail in Heq as [_ <-].
  apply last_snoc.
Qed.

(** The appended messages of at most three calls are all still held. *)
Lemma add_messages_keeps_calls (m : t) calls :
  length calls ≤ 3 →
  map message_of calls `suffix_of` messages (add_messages m calls).
Proof.
  intros Hcalls.
  pose proof (add_messages_length m calls) as Hlen.
  pose proof (add_messages_suffix m calls) as Hsuffix.
  assert (map message_of calls `suffix_of` messages m ++ map message_of calls)
    as Hcalls_suffix by apply suffix_app_r, reflexivity.
  destruct (suffix_weak_total _ _ _ Hcalls_suffix Hsuffix) as [Hdone|Hrev]; [done|].
  rewrite (suffix_length_eq _ _ Hrev); [done|].
  rewrite length_map. lia.
Qed.

End Budget.

(** X1. After every [add_message] the counter is within the budget, or
    at most three messages are held. *)
Theorem add_message_within_budget_or_minimal (m : Memory.t) (role content now : string) :
  float_gt_int (Memory.token_count (Memory.add_message m role content now))
    (Memory.max_tokens m) = false
  ∨ length (Memory.messages (Memory.add_message m role content now)) ≤ 3.
Proof.
  unfold Memory.add_message, Memory._prune_if_needed. cbn [Memory.messages
    Memory.max_tokens Memory.token_count].
  pose proof (prune_loop_exit (Memory.max_tokens m)
                (Memory.token_count m + Memory.token_estimate content)%float
                (Memory.messages m ++ [Memory.mkMessage role content now])) as Hexit.
  destruct (Memory.prune_loop _ _ _) as [msgs count].
  cbn [fst snd Memory.messages Memory.token_count] in *.
  apply andb_false_iff in Hexit as [Hbudget|Hlen]; [by left|right].
  by apply Nat.ltb_ge in Hlen.
Qed.

(** X2. [add_message] keeps every message it found, and adds exactly the
    estimate of the new one to the counter, precisely when the counter
    so increased is within the budget or the memory held fewer than
    three messages. *)
Theorem add_message_evicts_only_over_budget (m : Memory.t) (role content now : string) :
  let count := (Memory.token_count m + Memory.token_estimate content)%float in
  (float_gt_int count (Memory.max_tokens m) && (3 <? S (length (Memory.messages m)))
   = false →
   Memory.add_message m role content now
   = Memory.mkMemory (Memory.messages m ++ [Memory.mkMessage role content now])
       (Memory.max_tokens m) count)
  ∧ (float_gt_int count (Memory.max_tokens m) && (3 <? S (length (Memory.messages m)))
     = true →
     length (Memory.messages (Memory.add_message m role content now))
     ≤ length (Memory.messages m)).
Proof.
  intros count. unfold Memory.add_message, Memory._prune_if_needed.
  cbn [Memory.messages Memory.max_tokens Memory.token_count]. fold count.
  rewrite prune_loop_unfold, length_app. cbn [length].
  rewrite Nat.add_1_r.
  destruct (float_gt_int count (Memory.max_tokens m)
            && (3 <? S (length (Memory.messages m)))) eqn:Hgo.
  - split; [done|]. intros _.
    destruct (Memory.messages m ++ [Memory.mkMessage role content now])
      as [|removed rest] eqn:Hmsgs.
    { by destruct (Memory.messages m). }
    assert (length rest = length (Memory.messages m)) as Hrest.
    { apply (f_equal length) in Hmsgs. rewrite length_app in Hmsgs.
      cbn [length] in Hmsgs. lia. }
    destruct (prune_loop_spec (Memory.max_tokens m)
                (count - Memory.token_estimate (Memory.content removed))%float rest)
      as (evicted & Heq & _).
    destruct (Memory.prune_loop _ _ rest) as [msgs count'].
    cbn [fst snd Memory.messages] in *.
    rewrite <- Hrest, Heq, length_app. lia.
  - split; [done|discriminate].
Qed.

Lemma add_message_evicts_only_over_budget_witness :
  Memory.add_message (add_messages (Memory.__init__ 5) (take 2 four_calls))
    "assistant" "hello" "t2"
  = add_messages (Memory.__init__ 5) (take 3 four_calls)
  ∧ length (Memory.messages
       (Memory.add_message (add_messages (Memory.__init__ 5) (take 3 four_calls))
          "user" "bye" "t3")) ≤ 3.
Proof.
  split.
  - rewrite (proj1 (add_message_evicts_only_over_budget
               (add_messages (Memory.__init__ 5) (take 2 four_calls))
               "assistant" "hello" "t2")); vm_compute; reflexivity.
  - apply (proj2 (add_message_evicts_only_over_budget
               (add_messages (Memory.__init__ 5) (take 3 four_calls))
               "user" "bye" "t3")). vm_compute. reflexivity.
Defined.

(** X3. The message just appended is always the last message held,
    whatever the budget and whatever was evicted. *)
Theorem newest_message_is_retained (m : Memory.t) (role content now : string) :
  last (Memory.messages (Memory.add_message m role content now))
  = Some (Memory.mkMessage role content now).
Proof. apply add_message_last. Qed.

(** X4. For [1 <= n], [get_last_n_messages(n)] is the last [n] entries of
    [get_chat_messages()], all of them when [n] is the length or more. *)
Theorem last_n_messages_of_chat_messages (m : Memory.t) (n : Z) :
  (1 ≤ n)%Z →
  Memory.get_last_n_messages m n = last_n (Z.to_nat n) (Memory.get_chat_messages m)
  ∧ length (Memory.get_last_n_messages m n)
    = min (Z.to_nat n) (length (Memory.messages m))
  ∧ ((Z.of_nat (length (Memory.messages m)) ≤ n)%Z →
     Memory.get_last_n_messages m n = Memory.get_chat_messages m).
Proof.
  intros Hn.
  assert (Memory.get_last_n_messages m n
          = last_n (Z.to_nat n) (Memory.get_chat_messages m)) as Heq.
  { unfold Memory.get_last_n_messages, Memory.get_chat_messages, slice_from, last_n.
    destruct (Z.ltb_spec (- n) 0); [|lia].
    rewrite skipn_map, length_map. do 2 f_equal. lia. }
  split; [exact Heq|]. rewrite Heq. unfold last_n, Memory.get_chat_messages.
  rewrite length_drop, !length_map. split; [lia|].
  intros Hall. replace (length (Memory.messages m) - Z.to_nat n) with 0 by lia.
  done.
Qed.

Lemma last_n_messages_of_chat_messages_witness :
  let m := add_messages (Memory.__init__ 5) four_calls in
  (1 ≤ 2)%Z
  ∧ Memory.get_last_n_messages m 2
    = [Memory.mkChat "assistant" "hello"; Memory.mkChat "user" "bye"]
  ∧ Memory.get_last_n_messages m 7 = Memory.get_chat_messages m.
Proof.
  intros m. split; [lia|]. split.
  - rewrite (proj1 (last_n_messages_of_chat_messages m 2 ltac:(lia))).
    vm_compute. reflexivity.
  - apply (proj2 (proj2 (last_n_messages_of_chat_messages m 7 ltac:(lia)))).
    vm_compute. discriminate.
Defined.

(** X5. For a negative [n] the slice [[-n:]] starts at index [-n]:
    [get_last_n_messages(n)] is [get_chat_messages()] without its first
    [-n] entries. *)
Theorem negative_n_drops_the_oldest (m : Memory.t) (n : Z) :
  (n < 0)%Z →
  Memory.get_last_n_messages m n
  = drop (Z.to_nat (- n)) (Memory.get_chat_messages m).
Proof.
  intros Hn.
  unfold Memory.get_last_n_messages, Memory.get_chat_messages, slice_from.
  destruct (Z.ltb_spec (- n) 0); [lia|].
  rewrite skipn_map.
  destruct (Z.le_ge_cases (- n) (Z.of_nat (length (Memory.messages m)))) as [Hin|Hout].
  - by rewrite Z.min_l.
  - rewrite Z.min_r, Nat2Z.id by done.
    rewrite !drop_ge; [done| |]; rewrite ?length_map; lia.
Qed.

Lemma negative_n_drops_the_oldest_witness :
  (-1 < 0)%Z
  ∧ Memory.get_last_n_messages (add_messages (Memory.__init__ 5) four_calls) (-1)
    = [Memory.mkChat "assistant" "hello"; Memory.mkChat "user" "bye"].
Proof.
  split; [lia|].
  rewrite (negative_n_drops_the_oldest _ (-1) ltac:(lia)). vm_compute. reflexivity.
Defined.

(** ** The agent: construction, reset and the shape of a turn *)

Section AgentFacts.

Import Agent.

Lemma append_assoc (a b c : string) : (a +:+ b) +:+ c = a +:+ (b +:+ c).
Proof.
  induction a as [|x a IH]; [done|].
  change (String x ((a +:+ b) +:+ c) = String x (a +:+ (b +:+ c))). by f_equal.
Qed.

Lemma append_nil_r (a : string) : a +:+ EmptyString = a.
Proof.
  induction a as [|x a IH]; [done|].
  change (String x (a +:+ EmptyString) = String x a). by f_equal.
Qed.

Lemma concat_holds_each sep (lines : list string) line :
  line ∈ lines → ∃ before after, String.concat sep lines = before +:+ line +:+ after.
Proof.
  induction lines as [|x rest IH]; intros Hin; [by apply elem_of_nil in Hin|].
  apply elem_of_cons in Hin as [->|Hin].
  - exists EmptyString. destruct rest as [|y rest]; cbn [String.concat].
    + exists EmptyString. change (x = x +:+ EmptyString). by rewrite append_nil_r.
    + eexists. reflexivity.
  - destruct (IH Hin) as (before & after & Heq).
    destruct rest as [|y rest]; [by apply elem_of_nil in Hin|].
    exists (x +:+ sep +:+ before), after.
    cbn [String.concat]. cbn [String.concat] in Heq. rewrite Heq.
    by rewrite !append_assoc.
Qed.

Lemma append_holds_inside (prefix mid suffix line : string) :
  (∃ before after, mid = before +:+ line +:+ after) →
  ∃ before after, prefix +:+ mid +:+ suffix = before +:+ line +:+ after.
Proof.
  intros (before & after & ->).
  exists (prefix +:+ before), (after +:+ suffix). by rewrite !append_assoc.
Qed.

(** What a generation call does to the state: one request more, nothing
    else. *)
Lemma generation_call_effect env st :
  (generation_call env st).2
  = mkState (self st)
      (World.mkWorld (World.clock_reads (world st))
         (World.requests (world st) ++ [turn_request st])
         (World.stdout (world st))).
Proof.
  unfold generation_call, client_chat, OllamaClient.chat, turn_request.
  destruct (World.post env _ _ _) as [response|e];
    [destruct (_ =? _)%Z; [destruct (World.message_content response)|]|]; done.
Qed.

(** The memory and the clock after a turn, by its outcome. *)
Lemma turn_effect env user_input st r st' :
  process_user_input env user_input st = (r, st') →
  let t0 := World.now env (World.clock_reads (world st)) in
  let t1 := World.now env (S (World.clock_reads (world st))) in
  (generation_call env (user_message_added env user_input st)).1 = r
  ∧ memory (self st')
    = add_messages (memory (self st))
        (mkCall "user" user_input t0
         :: match r with
            | Returns response => [mkCall "assistant" response t1]
            | Raises _ => []
            end)
  ∧ World.requests (world st')
    = World.requests (world st) ++ [turn_request (user_message_added env user_input st)]
  ∧ World.stdout (world st') = World.stdout (world st)
  ∧ (client (self st'), model (self st'), tools (self st'), verbose (self st'),
     system_prompt (self st'))
    = (client (self st), model (self st), tools (self st), verbose (self st),
       system_prompt (self st))
  ∧ World.clock_reads (world st')
    = match r with
      | Returns _ => S (S (World.clock_reads (world st)))
      | Raises _ => S (World.clock_reads (world st))
      end.
Proof.
  rewrite process_user_input_unfold.
  pose proof (generation_call_effect env (user_message_added env user_input st)) as Hgen.
  destruct (generation_call env _) as [[response|e] st2]; cbn [fst snd] in *;
    intros [= <- <-]; subst st2; done.
Qed.

Lemma contains_char_skip c k s :
  contains_char c (skip k s) = true → contains_char c s = true.
Proof.
  revert s. induction k as [|k IH]; intros [|x s]; simpl; try done.
  intros Hin%IH. rewrite Hin. apply orb_true_r.
Qed.

(** Every match of the pattern opens with a brace and a backslash. *)
Lemma json_match_group response m :
  Re.search json_pattern response = Returns (Some m) →
  ∃ k x, skip k response = String "{" (String "\" x)
         ∧ ∃ y, Re.group0 m = String "{" (String "\" y).
Proof.
  unfold Re.search. rewrite json_pattern_compiles. intros [= Hsearch].
  apply search_at_spec in Hsearch as (k & n & Hhere & ->).
  apply json_match_opens in Hhere as (rest & n' & Hskip & ->).
  exists k, rest. split; [done|].
  unfold Re.group0. cbn [Re.start Re.stop Re.string_]. change (0 + k) with k.
  replace (k + S (S n') - k) with (S (S n')) by lia.
  rewrite substring_skip, Hskip. cbn [substring]. by eexists.
Qed.

Lemma agent_init_effect env model prompt tools verbose w :
  ∃ agent w',
    __init__ env model prompt tools verbose w = (Returns agent, w')
    ∧ Memory.messages (memory agent)
      = [Memory.mkMessage "system" (system_prompt agent)
           (World.now env (World.clock_reads w))]
    ∧ system_prompt agent
      = match prompt with
        | Some p => p
        | None => _create_default_system_prompt (Agent.tools agent)
        end
    ∧ World.requests w' = World.requests w.
Proof.
  unfold __init__, memory_add_message, modify.
  cbn [self world memory client Agent.model Agent.tools Agent.verbose system_prompt
       World.clock_reads World.requests World.stdout mbind outcome_bind].
  rewrite add_message_few by (cbn; lia).
  eexists _, _. split; [reflexivity|]. cbn. by destruct prompt.
Qed.

Lemma reset_effect env st :
  reset env st
  = (Returns tt,
     mkState
       (mkAgent (client (self st)) (model (self st))
          (Memory.mkMemory
             [Memory.mkMessage "system" (system_prompt (self st))
                (World.now env (World.clock_reads (world st)))]
             (Memory.max_tokens (memory (self st)))
             (0 + Memory.token_estimate (system_prompt (self st)))%float)
          (tools (self st)) (verbose (self st)) (system_prompt (self st)))
       (World.mkWorld (S (World.clock_reads (world st))) (World.requests (world st))
          (World.stdout (world st)))).
Proof.
  unfold reset, memory_add_message, modify, gets, mbind, M_bind.
  cbn [fst snd self world memory client model tools verbose system_prompt
       World.clock_reads World.requests World.stdout].
  by rewrite add_message_few by (cbn; lia).
Qed.


End AgentFacts.

(** X6. A new agent holds exactly one message, the system prompt it was
    given or, without one, the default prompt built from its tools; no
    request is issued by constructing it. *)
Theorem new_agent_holds_only_system_prompt
    (env : World.oracle) (model : string) (system_prompt : option string)
    (tools : option (list Tool.t)) (verbose : bool) (w : World.t) :
  ∃ agent w',
    Agent.__init__ env model system_prompt tools verbose w = (Returns agent, w')
    ∧ Memory.messages (Agent.memory agent)
      = [Memory.mkMessage "system" (Agent.system_prompt agent)
           (World.now env (World.clock_reads w))]
    ∧ Agent.system_prompt agent
      = match system_prompt with
        | Some p => p
        | None => Agent._create_default_system_prompt (Agent.tools agent)
        end
    ∧ World.requests w' = World.requests w.
Proof. apply agent_init_effect. Qed.

(** X7. [reset] leaves exactly one message in memory, the system prompt,
    whatever the memory held, with the counter started afresh; the rest
    of the agent is untouched and no request is issued. *)
Theorem reset_leaves_only_system_prompt (env : World.oracle) (st : Agent.State) :
  (Agent.reset env st).1 = Returns tt
  ∧ Agent.memory (Agent.self (Agent.reset env st).2)
    = Memory.mkMemory
        [Memory.mkMessage "system" (Agent.system_prompt (Agent.self st))
           (World.now env (World.clock_reads (Agent.world st)))]
        (Memory.max_tokens (Agent.memory (Agent.self st)))
        (0 + Memory.token_estimate (Agent.system_prompt (Agent.self st)))%float
  ∧ (Agent.model (Agent.self (Agent.reset env st).2),
     Agent.tools (Agent.self (Agent.reset env st).2),
     Agent.system_prompt (Agent.self (Agent.reset env st).2))
    = (Agent.model (Agent.self st), Agent.tools (Agent.self st),
       Agent.system_prompt (Agent.self st))
  ∧ World.requests (Agent.world (Agent.reset env st).2)
    = World.requests (Agent.world st).
Proof. by rewrite reset_effect. Qed.

(** X8. The default system prompt advertises every tool: for each tool of
    the list it holds the line [- name: description]. *)
Theorem default_prompt_lists_every_tool (tools : list Tool.t) (tool : Tool.t) :
  tool ∈ tools →
  ∃ before after,
    Agent._create_default_system_prompt tools = before +:+ tool_line tool +:+ after.
Proof.
  intros Hin. unfold Agent._create_default_system_prompt.
  apply append_holds_inside, concat_holds_each.
  apply list_elem_of_In, (in_map tool_line), list_elem_of_In, Hin.
Qed.

Lemma default_prompt_lists_every_tool_witness :
  broken_tool ∈ [calculate_tool; broken_tool]
  ∧ ∃ before after,
      Agent._create_default_system_prompt [calculate_tool; broken_tool]
      = before +:+ "- read_file: Read content from a file" +:+ after.
Proof.
  assert (broken_tool ∈ [calculate_tool; broken_tool]) as Hin by (right; left).
  split; [exact Hin|].
  exact (default_prompt_lists_every_tool [calculate_tool; broken_tool] broken_tool Hin).
Defined.

(** X9. Every turn, whatever the response, issues exactly one request,
    prints nothing (also with [verbose] set) and leaves the client, the
    model, the tools and the system prompt of the agent as they were. *)
Theorem turn_is_one_request (env : World.oracle) (user_input : string) (st : Agent.State) :
  let st' := (Agent.process_user_input env user_input st).2 in
  World.requests (Agent.world st')
  = World.requests (Agent.world st) ++ [turn_request (user_message_added env user_input st)]
  ∧ World.stdout (Agent.world st') = World.stdout (Agent.world st)
  ∧ (Agent.client (Agent.self st'), Agent.model (Agent.self st'),
     Agent.tools (Agent.self st'), Agent.verbose (Agent.self st'),
     Agent.system_prompt (Agent.self st'))
    = (Agent.client (Agent.self st), Agent.model (Agent.self st),
       Agent.tools (Agent.self st), Agent.verbose (Agent.self st),
       Agent.system_prompt (Agent.self st)).
Proof.
  intros st'.
  destruct (Agent.process_user_input env user_input st) as [r st''] eqn:Hturn.
  subst st'. cbn [snd].
  by destruct (turn_effect env user_input st r st'' Hturn) as (_ & _ & ? & ? & ? & _).
Qed.

(** X10. A turn that returns [response] returns what the backend
    answered, unchanged even if it holds a tool call, and its memory
    ends with the user message followed by that response as the
    assistant message, whatever was evicted. *)
Theorem successful_turn_records_user_and_response
    (env : World.oracle) (user_input : string) (st : Agent.State)
    (response : string) (st' : Agent.State) :
  Agent.process_user_input env user_input st = (Returns response, st') →
  (generation_call env (user_message_added env user_input st)).1 = Returns response
  ∧ ∃ older,
      Memory.messages (Agent.memory (Agent.self st'))
      = older
        ++ [Memory.mkMessage "user" user_input
              (World.now env (World.clock_reads (Agent.world st)));
            Memory.mkMessage "assistant" response
              (World.now env (S (World.clock_reads (Agent.world st))))].
Proof.
  intros Hturn.
  destruct (turn_effect env user_input st _ st' Hturn) as (Hgen & Hmem & _).
  split; [exact Hgen|]. rewrite Hmem.
  apply (add_messages_keeps_calls (Agent.memory (Agent.self st))
           [mkCall "user" user_input _; mkCall "assistant" response _]).
  simpl. lia.
Qed.

Lemma successful_turn_records_user_and_response_witness :
  let env := scenario_env "" in
  let st := scenario_state env [calculate_tool] in
  ∃ st', Agent.process_user_input env "compute 2+2" st = (Returns primary_response, st')
    ∧ ∃ older,
        Memory.messages (Agent.memory (Agent.self st'))
        = older
          ++ [Memory.mkMessage "user" "compute 2+2" "2026-01-01T00:00:01";
              Memory.mkMessage "assistant" primary_response "2026-01-01T00:00:02"].
Proof.
  intros env st.
  destruct (Agent.process_user_input env "compute 2+2" st) as [r st'] eqn:Hturn.
  pose proof (f_equal fst Hturn) as Hr. vm_compute in Hr. subst r.
  change (Returns _) with (Returns primary_response) in Hturn.
  exists st'. split; [reflexivity|].
  exact (proj2 (successful_turn_records_user_and_response env "compute 2+2" st
                  primary_response st' Hturn)).
Defined.

(** X11. The request of a turn goes to [<base_url>/api/chat] and carries
    the messages held once the user message is added, the last of which
    is that user message; the agent's model, temperature 0.7, 1000
    tokens at most, no streaming. *)
Theorem turn_request_ends_with_user_message
    (env : World.oracle) (user_input : string) (st : Agent.State) :
  let request := turn_request (user_message_added env user_input st) in
  last (World.requests (Agent.world (Agent.process_user_input env user_input st).2))
  = Some request
  ∧ request.1 = OllamaClient.base_url (Agent.client (Agent.self st)) +:+ "/api/chat"
  ∧ last (World.p_messages request.2) = Some (Memory.mkChat "user" user_input)
  ∧ World.p_model request.2 = Agent.model (Agent.self st)
  ∧ World.p_stream request.2 = false
  ∧ World.p_num_predict request.2 = 1000%Z
  ∧ World.p_temperature request.2 = 0x1.6666666666666p-1%float.
Proof.
  intros request.
  destruct (Agent.process_user_input env user_input st) as [r st'] eqn:Hturn.
  destruct (turn_effect env user_input st r st' Hturn) as (_ & _ & Hreq & _).
  cbn [snd]. rewrite Hreq, last_snoc. split; [done|].
  unfold request, turn_request, user_message_added, Agent.memory_add_message, modify.
  cbn [fst snd Agent.self Agent.world Agent.memory Agent.client Agent.model
       World.p_messages World.p_model World.p_stream World.p_num_predict
       World.p_temperature].
  repeat (split; [done|]). split; [|done].
  unfold Memory.get_chat_messages.
  pose proof (add_message_last (Agent.memory (Agent.self st)) "user"
                user_input (World.now env (World.clock_reads (Agent.world st)))) as Hlast.
  apply last_Some in Hlast as [older ->].
  rewrite map_app. cbn [map]. apply last_snoc.
Qed.

(** X12. When a turn fails and the same input is sent again, the user
    message is in memory twice: after the second, successful turn the
    memory ends with the user message, the user message again and the
    response. *)
Theorem retried_turn_repeats_user_message
    (env : World.oracle) (user_input : string) (st st1 st2 : Agent.State)
    (e : exn) (response : string) :
  Agent.process_user_input env user_input st = (Raises e, st1) →
  Agent.process_user_input env user_input st1 = (Returns response, st2) →
  let clock := World.clock_reads (Agent.world st) in
  ∃ older,
    Memory.messages (Agent.memory (Agent.self st2))
    = older
      ++ [Memory.mkMessage "user" user_input (World.now env clock);
          Memory.mkMessage "user" user_input (World.now env (S clock));
          Memory.mkMessage "assistant" response (World.now env (S (S clock)))].
Proof.
  intros Hfail Hretry clock.
  destruct (turn_effect env user_input st _ st1 Hfail) as (_ & Hmem1 & _ & _ & _ & Hclock).
  destruct (turn_effect env user_input st1 _ st2 Hretry) as (_ & Hmem2 & _).
  rewrite Hmem2, Hmem1, Hclock. fold clock.
  apply (add_messages_keeps_calls (Agent.memory (Agent.self st))
           [mkCall "user" user_input _; mkCall "user" user_input _;
            mkCall "assistant" response _]).
  simpl. lia.
Qed.

Lemma retried_turn_repeats_user_message_witness :
  let st := scenario_state flaky_env [calculate_tool] in
  let st1 := (Agent.process_user_input flaky_env "hello" st).2 in
  let st2 := (Agent.process_user_input flaky_env "hello" st1).2 in
  Agent.process_user_input flaky_env "hello" st
    = (Raises (Exn "ConnectionError" "Connection refused"), st1)
  ∧ Agent.process_user_input flaky_env "hello" st1 = (Returns "Hi!", st2)
  ∧ ∃ older,
      Memory.messages (Agent.memory (Agent.self st2))
      = older
        ++ [Memory.mkMessage "user" "hello" "t1";
            Memory.mkMessage "user" "hello" "t2";
            Memory.mkMessage "assistant" "Hi!" "t3"].
Proof.
  intros st st1 st2.
  assert (Agent.process_user_input flaky_env "hello" st
          = (Raises (Exn "ConnectionError" "Connection refused"), st1)) as Hfail
    by (vm_compute; reflexivity).
  assert (Agent.process_user_input flaky_env "hello" st1 = (Returns "Hi!", st2))
    as Hretry by (vm_compute; reflexivity).
  split; [exact Hfail|]. split; [exact Hretry|].
  exact (retried_turn_repeats_user_message flaky_env "hello" st st1 st2 _ _
           Hfail Hretry).
Defined.

(** X13. [json_pattern] has no match in a text without a backslash: no
    JSON object that a model writes plainly is ever found by the
    search. *)
Theorem json_pattern_needs_a_backslash (response : string) :
  contains_char "\" response = false →
  Re.search Agent.json_pattern response = Returns None.
Proof.
  intros Hnone.
  destruct (Re.search Agent.json_pattern response) as [[m|]|e] eqn:Hsearch.
  - apply json_match_group in Hsearch as (k & x & Hskip & _).
    rewrite (contains_char_skip "\" k response) in Hnone; [done|].
    rewrite Hskip. reflexivity.
  - done.
  - unfold Re.search in Hsearch. by rewrite json_pattern_compiles in Hsearch.
Qed.

Lemma json_pattern_needs_a_backslash_witness :
  contains_char "\" primary_response = false
  ∧ Re.search Agent.json_pattern primary_response = Returns None.
Proof.
  assert (contains_char "\" primary_response = false) as Hnone
    by (vm_compute; reflexivity).
  split; [exact Hnone|]. exact (json_pattern_needs_a_backslash primary_response Hnone).
Defined.

(** X14. Whatever [json_pattern] matches is not JSON: [json.loads] of the
    matched text raises [JSONDecodeError], since the text opens with a
    brace followed by a backslash. *)
Theorem json_pattern_match_never_decodes (response : string) (m : Re.Match) :
  Re.search Agent.json_pattern response = Returns (Some m) →
  Json.loads (Re.group0 m)
  = Raises (Json.JSONDecodeError "Expecting property name enclosed in double quotes").
Proof.
  intros (_ & _ & _ & y & ->)%json_match_group. apply loads_brace_backslash.
Qed.

Lemma json_pattern_match_never_decodes_witness :
  let response := dq "ok {\`tool`\:\`X`\,\`parameters`\:\\{`a`:`b`\}\\} ." in
  let m := Re.mkMatch response 3 49 in
  Re.search Agent.json_pattern response = Returns (Some m)
  ∧ Re.group0 m = dq "{\`tool`\:\`X`\,\`parameters`\:\\{`a`:`b`\}\\}"
  ∧ Json.loads (Re.group0 m)
    = Raises (Json.JSONDecodeError "Expecting property name enclosed in double quotes").
Proof.
  intros response m.
  assert (Re.search Agent.json_pattern response = Returns (Some m)) as Hsearch
    by (vm_compute; reflexivity).
  split; [exact Hsearch|]. split; [vm_compute; reflexivity|].
  exact (json_pattern_match_never_decodes response m Hsearch).
Defined.

(** X15. When the first tool of the requested name returns, its result is
    returned as it is; tools before it with other names and every tool
    after it play no part. *)
Theorem execute_tool_returns_first_match
    (before after : list Tool.t) (tool : Tool.t) (parameters : Json.value)
    (result : string) :
  (∀ other, other ∈ before → Tool.name other ≠ Tool.name tool) →
  Tool.func tool parameters = Returns result →
  Agent._execute_tool (before ++ tool :: after) (Tool.name tool) parameters
  = Returns result.
Proof.
  intros Hbefore Hresult.
  induction before as [|other before IH]; cbn [app Agent._execute_tool].
  - rewrite String.eqb_refl. unfold Tool.__call__. by rewrite Hresult.
  - destruct (String.eqb_spec (Tool.name other) (Tool.name tool)) as [Heq|_].
    + destruct (Hbefore other); [left|done].
    + apply IH. intros other' Hin. apply Hbefore. by right.
Qed.

Lemma execute_tool_returns_first_match_witness :
  (∀ other, other ∈ [broken_tool] → Tool.name other ≠ Tool.name calculate_tool)
  ∧ Agent._execute_tool [broken_tool; calculate_tool; second_calculate_tool]
      "calculate" (Json.Obj [("expression", Json.Str "2+2")])
    = Returns "Result: 4".
Proof.
  assert (∀ other, other ∈ [broken_tool] → Tool.name other ≠ Tool.name calculate_tool)
    as Hbefore.
  { intros other Hin. apply elem_of_cons in Hin as [->|Hin]; [discriminate|].
    by apply elem_of_nil in Hin. }
  split; [exact Hbefore|].
  exact (execute_tool_returns_first_match [broken_tool] [second_calculate_tool]
           calculate_tool (Json.Obj [("expression", Json.Str "2+2")]) "Result: 4"
           Hbefore eq_refl).
Defined.

(** ** The chat agent and the interactive session *)

Section Session.

Import Agent.



End Session.

(** X16. A chat agent made with a personality that is not one of the four
    gets the prompt of [friendly], while its [personality] attribute
    keeps the name it was given. *)
Theorem unknown_personality_falls_back_to_friendly
    (env : World.oracle) (model : string) (verbose : bool) (personality : string)
    (w : World.t) :
  dict_get ChatAgent.personalities personality = None →
  ∃ friendly agent w',
    dict_get ChatAgent.personalities "friendly" = Some friendly
    ∧ ChatAgent.__init__ env model verbose personality w = (Returns agent, w')
    ∧ Agent.system_prompt (ChatAgent.base agent) = ChatAgent.chat_prompt friendly
    ∧ ChatAgent.personality agent = personality
    ∧ Memory.get_chat_messages (Agent.memory (ChatAgent.base agent))
      = [Memory.mkChat "system" (ChatAgent.chat_prompt friendly)].
Proof.
  intros Hunknown. unfold ChatAgent.__init__. rewrite Hunknown.
  eexists. cbn [ChatAgent.getitem ChatAgent.personalities dict_get String.eqb Ascii.eqb
                Bool.eqb default].
  destruct (agent_init_effect env model
              (Some (ChatAgent.chat_prompt
                 "You are friendly, warm, and engaging. You use a conversational tone with occasional humor and emoticons."))
              (Some (STANDARD_TOOLS env)) verbose w)
    as (agent & w' & Hinit & Hmessages & Hprompt & _).
  rewrite Hinit. exists (ChatAgent.mkChatAgent agent personality), w'.
  split; [reflexivity|]. split; [done|].
  cbn [ChatAgent.base ChatAgent.personality]. split; [exact Hprompt|]. split; [done|].
  unfold Memory.get_chat_messages. rewrite Hmessages. cbn. by rewrite Hprompt.
Qed.

Lemma unknown_personality_falls_back_to_friendly_witness :
  dict_get ChatAgent.personalities "grumpy" = None
  ∧ ∃ friendly agent w',
      dict_get ChatAgent.personalities "friendly" = Some friendly
      ∧ ChatAgent.__init__ failing_env "llama3" false "grumpy" World.initial
        = (Returns agent, w')
      ∧ Agent.system_prompt (ChatAgent.base agent) = ChatAgent.chat_prompt friendly
      ∧ ChatAgent.personality agent = "grumpy"
      ∧ Memory.get_chat_messages (Agent.memory (ChatAgent.base agent))
        = [Memory.mkChat "system" (ChatAgent.chat_prompt friendly)].
Proof.
  split; [reflexivity|].
  exact (unknown_personality_falls_back_to_friendly failing_env "llama3" false "grumpy"
           World.initial eq_refl).
Defined.

(** X17. [change_personality] to one of the four personalities leaves two
    system messages in memory: the prompt that was in use before, put
    back by [reset], and after it the new prompt. The new prompt becomes
    the agent's system prompt, no request is issued, and the change is
    reported. *)
Theorem change_personality_keeps_the_old_prompt
    (env : World.oracle) (new_personality selected : string) (st : ChatAgent.State) :
  dict_get ChatAgent.personalities new_personality = Some selected →
  let clock := World.clock_reads (ChatAgent.world st) in
  let old_prompt := Agent.system_prompt (ChatAgent.base (ChatAgent.self st)) in
  let st' := (ChatAgent.change_personality env new_personality st).2 in
  (ChatAgent.change_personality env new_personality st).1
  = Returns ("Personality changed to '" +:+ new_personality +:+ "'.")
  ∧ Memory.messages (Agent.memory (ChatAgent.base (ChatAgent.self st')))
    = [Memory.mkMessage "system" old_prompt (World.now env clock);
       Memory.mkMessage "system" (ChatAgent.chat_prompt selected)
         (World.now env (S clock))]
  ∧ Agent.system_prompt (ChatAgent.base (ChatAgent.self st'))
    = ChatAgent.chat_prompt selected
  ∧ ChatAgent.personality (ChatAgent.self st') = new_personality
  ∧ World.requests (ChatAgent.world st') = World.requests (ChatAgent.world st).
Proof.
  intros Hknown clock old_prompt st'. subst st'.
  unfold ChatAgent.change_personality. rewrite Hknown.
  unfold mbind, M_bind, modify, ChatAgent.as_agent, mret, M_ret.
  cbn [fst snd ChatAgent.self ChatAgent.world ChatAgent.base ChatAgent.personality].
  rewrite reset_effect.
  cbn [fst snd ChatAgent.self ChatAgent.world ChatAgent.base ChatAgent.personality
       Agent.self Agent.world].
  unfold Agent.memory_add_message, modify.
  cbn [fst snd ChatAgent.self ChatAgent.world ChatAgent.base ChatAgent.personality
       Agent.self Agent.world Agent.memory Agent.system_prompt Agent.client Agent.model
       Agent.tools Agent.verbose World.clock_reads World.requests World.stdout].
  rewrite add_message_few by (cbn; lia). done.
Qed.

Lemma change_personality_keeps_the_old_prompt_witness :
  let st := match ChatAgent.__init__ failing_env "llama3" false "friendly" World.initial with
            | (Returns agent, w) => ChatAgent.mkState agent w
            | (Raises _, w) =>
                ChatAgent.mkState
                  (ChatAgent.mkChatAgent
                     (Agent.mkAgent OllamaClient.__init__ "" (Memory.__init__ 0) [] false "")
                     "") w
            end in
  ∃ friendly creative,
    dict_get ChatAgent.personalities "friendly" = Some friendly
    ∧ dict_get ChatAgent.personalities "creative" = Some creative
    ∧ Memory.get_chat_messages
        (Agent.memory (ChatAgent.base (ChatAgent.self
           (ChatAgent.change_personality failing_env "creative" st).2)))
      = [Memory.mkChat "system" (ChatAgent.chat_prompt friendly);
         Memory.mkChat "system" (ChatAgent.chat_prompt creative)].
Proof.
  intros st. eexists _, _. split; [reflexivity|]. split; [reflexivity|].
  unfold Memory.get_chat_messages.
  rewrite (proj1 (proj2 (change_personality_keeps_the_old_prompt failing_env
                           "creative" _ st eq_refl))).
  vm_compute. reflexivity.
Defined.


(** ** A failed turn and its retry *)

(** The memory once a second user message has been appended for the
    retry holds the user message of the failed turn just before it. *)
Lemma retry_memory env user_input st e st' r st'' :
  Agent.process_user_input env user_input st = (Raises e, st') →
  Agent.process_user_input env user_input st' = (r, st'') →
  let user_message := Memory.mkChat "user" user_input in
  (∃ older,
     World.p_messages (turn_request (user_message_added env user_input st')).2
     = older ++ [user_message; user_message])
  ∧ ∃ older,
      Memory.get_chat_messages (Agent.memory (Agent.self st''))
      = older ++ user_message :: user_message
                 :: match r with
                    | Returns response => [Memory.mkChat "assistant" response]
                    | Raises _ => []
                    end.
Proof.
  intros Hfail Hretry user_message.
  destruct (turn_effect env user_input st _ st' Hfail) as (_ & Hmem1 & _).
  destruct (turn_effect env user_input st' _ st'' Hretry) as (_ & Hmem2 & _).
  split.
  - cbn [turn_request snd World.p_messages].
    unfold user_message_added, Agent.memory_add_message, modify.
    cbn [snd Agent.self Agent.memory]. rewrite Hmem1.
    destruct (add_messages_keeps_calls (Agent.memory (Agent.self st))
                [mkCall "user" user_input
                   (World.now env (World.clock_reads (Agent.world st)));
                 mkCall "user" user_input
                   (World.now env (World.clock_reads (Agent.world st')))])
      as [older Hheld]; [simpl; lia|].
    exists (map Memory.to_chat_message older).
    unfold Memory.get_chat_messages.
    change (Memory.add_message (add_messages ?m [?c]) ?role ?content ?now)
      with (add_messages m [c; mkCall role content now]).
    by rewrite Hheld, map_app.
  - rewrite Hmem2, Hmem1.
    set (t0 := World.now env (World.clock_reads (Agent.world st))).
    set (t1 := World.now env (World.clock_reads (Agent.world st'))).
    set (answer := match r with
                   | Returns response =>
                       [mkCall "assistant" response
                          (World.now env (S (World.clock_reads (Agent.world st'))))]
                   | Raises _ => []
                   end).
    destruct (add_messages_keeps_calls (Agent.memory (Agent.self st))
                (mkCall "user" user_input t0 :: mkCall "user" user_input t1 :: answer))
      as [older Hheld]; [unfold answer; destruct r; simpl; lia|].
    exists (map Memory.to_chat_message older).
    unfold Memory.get_chat_messages.
    change (add_messages (add_messages ?m [?c]) ?calls)
      with (add_messages m (c :: calls)).
    rewrite Hheld, map_app. unfold answer. by destruct r.
Qed.

(** C6, counterexample: the backend is out of reach for the first
    request, the turn fails, and the same input is sent again. The state
    that the retry starts from already holds the user message, and the
    retry records it a second time: its request carries the message
    twice, and so does the memory afterwards. *)
Lemma retry_records_user_message_twice :
  let st := scenario_state flaky_env [calculate_tool] in
  let st1 := (Agent.process_user_input flaky_env "hello" st).2 in
  let st2 := (Agent.process_user_input flaky_env "hello" st1).2 in
  (Agent.process_user_input flaky_env "hello" st).1
    = Raises (Exn "ConnectionError" "Connection refused")
  ∧ last_n 1 (Memory.get_chat_messages (Agent.memory (Agent.self st1)))
    = [Memory.mkChat "user" "hello"]
  ∧ (Agent.process_user_input flaky_env "hello" st1).1 = Returns "Hi!"
  ∧ option_map (fun request => last_n 2 (World.p_messages request.2))
      (last (World.requests (Agent.world st2)))
    = Some [Memory.mkChat "user" "hello"; Memory.mkChat "user" "hello"]
  ∧ last_n 3 (Memory.get_chat_messages (Agent.memory (Agent.self st2)))
    = [Memory.mkChat "user" "hello"; Memory.mkChat "user" "hello";
       Memory.mkChat "assistant" "Hi!"].
Proof. vm_compute. repeat split. Qed.

(** C6, as the code has it. A turn ends in an error exactly when its
    generation call raises, and then with that error; the agent is left
    as it was once the user message had been appended, so its memory
    holds that message and no assistant message of the turn, and one
    request has been issued. Nothing is taken back: when the same input
    is sent again, the user message is appended a second time, so the
    request of the retry ends with the message twice, and so does the
    memory after the retry, before the response if there is one. *)
Theorem failed_turn_keeps_user_message
    (env : World.oracle) (user_input : string) (st : Agent.State) (e : exn) :
  let st1 := user_message_added env user_input st in
  let user_message := Memory.mkChat "user" user_input in
  ((generation_call env st1).1 = Raises e →
   Agent.process_user_input env user_input st = (Raises e, (generation_call env st1).2))
  ∧ (∀ st', Agent.process_user_input env user_input st = (Raises e, st') →
       (generation_call env st1).1 = Raises e
       ∧ Agent.memory (Agent.self st')
         = Memory.add_message (Agent.memory (Agent.self st)) "user" user_input
             (World.now env (World.clock_reads (Agent.world st)))
       ∧ length (World.requests (Agent.world st'))
         = S (length (World.requests (Agent.world st)))
       ∧ ∀ r st'', Agent.process_user_input env user_input st' = (r, st'') →
           (∃ older request,
              World.requests (Agent.world st'')
              = World.requests (Agent.world st') ++ [request]
              ∧ World.p_messages request.2 = older ++ [user_message; user_message])
           ∧ ∃ older,
               Memory.get_chat_messages (Agent.memory (Agent.self st''))
               = older ++ user_message :: user_message
                          :: match r with
                             | Returns response => [Memory.mkChat "assistant" response]
                             | Raises _ => []
                             end).
Proof.
  intros st1 user_message. split.
  - rewrite process_user_input_unfold. fold st1.
    destruct (generation_call env st1) as [[response|e'] st2]; cbn [fst snd]; [done|].
    by intros [= ->].
  - intros st' Hfail.
    destruct (turn_effect env user_input st _ st' Hfail) as (Hgen & Hmem & Hreq & _).
    split; [exact Hgen|]. split; [exact Hmem|].
    split; [rewrite Hreq, length_app; simpl; lia|].
    intros r st'' Hretry.
    destruct (retry_memory env user_input st e st' r st'' Hfail Hretry)
      as [[older Hsent] Hheld].
    destruct (turn_effect env user_input st' _ st'' Hretry) as (_ & _ & Hreq2 & _).
    split; [|exact Hheld]. by eexists older, _.
Qed.

Lemma failed_turn_keeps_user_message_witness :
  let st := scenario_state flaky_env [calculate_tool] in
  let e := Exn "ConnectionError" "Connection refused" in
  let st' := (Agent.process_user_input flaky_env "hello" st).2 in
  let st'' := (Agent.process_user_input flaky_env "hello" st').2 in
  (generation_call flaky_env (user_message_added flaky_env "hello" st)).1 = Raises e
  ∧ Agent.process_user_input flaky_env "hello" st = (Raises e, st')
  ∧ Agent.process_user_input flaky_env "hello" st' = (Returns "Hi!", st'')
  ∧ Agent.memory (Agent.self st')
    = Memory.add_message (Agent.memory (Agent.self st)) "user" "hello" "t1"
  ∧ ∃ older,
      Memory.get_chat_messages (Agent.memory (Agent.self st''))
      = older ++ [Memory.mkChat "user" "hello"; Memory.mkChat "user" "hello";
                  Memory.mkChat "assistant" "Hi!"].
Proof.
  intros st e st' st''.
  assert ((generation_call flaky_env (user_message_added flaky_env "hello" st)).1
          = Raises e) as Hgen by (vm_compute; reflexivity).
  assert (Agent.process_user_input flaky_env "hello" st' = (Returns "Hi!", st''))
    as Hretry by (vm_compute; reflexivity).
  pose proof (failed_turn_keeps_user_message flaky_env "hello" st e) as [Hforward Hback].
  assert (Agent.process_user_input flaky_env "hello" st = (Raises e, st')) as Hfail
    by (rewrite (Hforward Hgen); reflexivity).
  destruct (Hback st' Hfail) as (_ & Hmem & _ & Hagain).
  split; [exact Hgen|]. split; [exact Hfail|]. split; [exact Hretry|].
  split; [exact Hmem|]. exact (proj2 (Hagain _ _ Hretry)).
Defined.
